(** * protomesh-go: the AWS Lambda controller (package [lambda])

    A shallow embedding of [aws/lambda/controller.go], of the synthetic
    server stream ([grpcServerStream]) and of [convertResultError], with
    the properties of the dispatcher, the envelope codec, the status
    translator and the method binder.

    Go values are modelled as follows.
    - [string] is Rocq's [string] (a sequence of 8-bit characters),
      [[]byte] is [list byte], [int] is [Z], [codes.Code] (a [uint32]) is [N].
    - [map[string]V] is [gmap string V]; a nil map and an empty map are both [∅].
    - A pointer to a struct that one owner mutates ([*Response]) is passed
      and returned explicitly; where two names alias one response (the
      stream adapter's [res] field and the handler's [res]) the model keeps
      a single copy inside the stream state and reads it back from there.
    - A Go function is a total function; what it does to the rest of the
      process is an explicit world [W] threaded through the call.
    - A run-time panic is modelled where registration can raise one
      ([Outcome]); handler bodies are modelled on the values for which
      their unchecked type assertions hold. *)

From Stdlib Require Import ZArith NArith Ascii String List Bool Lia DecimalString.
From Stdlib.Strings Require Byte.
From stdpp Require Import base option list gmap strings fin_maps.

Import ListNotations.
Local Open Scope string_scope.
Local Open Scope Z_scope.

(** ** Library substrate: [encoding/base64], [RawStdEncoding] *)

Module base64.

(** Six bits, most significant first. *)
Definition sextet : Type := (bool * bool * bool * bool * bool * bool)%type.

Definition encodeStd : string :=
  "ABCDEFGHIJKLMNOPQRSTUVWXYZabcdefghijklmnopqrstuvwxyz0123456789+/".

Definition bit (b : bool) : nat := if b then 1%nat else 0%nat.

Definition index (s : sextet) : nat :=
  let '(c5, c4, c3, c2, c1, c0) := s in
  (32 * bit c5 + 16 * bit c4 + 8 * bit c3 + 4 * bit c2 + 2 * bit c1 + bit c0)%nat.

Definition of_index (n : nat) : sextet :=
  (Nat.testbit n 5, Nat.testbit n 4, Nat.testbit n 3,
   Nat.testbit n 2, Nat.testbit n 1, Nat.testbit n 0).

(** [enc.encode[i]]: the i-th character of the alphabet. *)
Definition encode_char (s : sextet) : ascii :=
  nth (index s) (list_ascii_of_string encodeStd) "A"%char.

Fixpoint position (c : ascii) (l : list ascii) : option nat :=
  match l with
  | [] => None
  | x :: r => if Ascii.eqb c x then Some 0%nat else S <$> position c r
  end.

(** [enc.decodeMap[c]]: the sextet of an alphabet character, nothing for
    every other character. *)
Definition decode_char (c : ascii) : option sextet :=
  of_index <$> position c (list_ascii_of_string encodeStd).

(** Three bytes make four sextets. [Byte.to_bits] is least significant
    bit first. *)
Definition split3 (x y z : Byte.byte) : sextet * sextet * sextet * sextet :=
  let '(x0, (x1, (x2, (x3, (x4, (x5, (x6, x7))))))) := Byte.to_bits x in
  let '(y0, (y1, (y2, (y3, (y4, (y5, (y6, y7))))))) := Byte.to_bits y in
  let '(z0, (z1, (z2, (z3, (z4, (z5, (z6, z7))))))) := Byte.to_bits z in
  ((x7, x6, x5, x4, x3, x2), (x1, x0, y7, y6, y5, y4),
   (y3, y2, y1, y0, z7, z6), (z5, z4, z3, z2, z1, z0)).

Definition byte_a (s t : sextet) : Byte.byte :=
  let '(a5, a4, a3, a2, a1, a0) := s in
  let '(b5, b4, _, _, _, _) := t in
  Byte.of_bits (b4, (b5, (a0, (a1, (a2, (a3, (a4, a5))))))).

Definition byte_b (t u : sextet) : Byte.byte :=
  let '(_, _, b3, b2, b1, b0) := t in
  let '(c5, c4, c3, c2, _, _) := u in
  Byte.of_bits (c2, (c3, (c4, (c5, (b0, (b1, (b2, b3))))))).

Definition byte_c (u v : sextet) : Byte.byte :=
  let '(_, _, _, _, c1, c0) := u in
  let '(d5, d4, d3, d2, d1, d0) := v in
  Byte.of_bits (d0, (d1, (d2, (d3, (d4, (d5, (c0, c1))))))).

Definition zero : Byte.byte := Byte.x00.

(** [Encode]: full quanta of three bytes, then a remainder of one or two
    bytes that yields two or three characters (no padding). *)
Fixpoint encode_sextets (src : list Byte.byte) : list sextet :=
  match src with
  | [] => []
  | [x] => let '(s, t, _, _) := split3 x zero zero in [s; t]
  | [x; y] => let '(s, t, u, _) := split3 x y zero in [s; t; u]
  | x :: y :: z :: rest =>
      let '(s, t, u, v) := split3 x y z in
      s :: t :: u :: v :: encode_sextets rest
  end.

Definition EncodeToString (src : list Byte.byte) : string :=
  string_of_list_ascii (encode_char <$> encode_sextets src).

(** [decodeQuantum], non-strict: a lone trailing character is corrupt
    input; two or three trailing characters give one or two bytes and
    their unused low bits are ignored. *)
Fixpoint decode_sextets (l : list sextet) : option (list Byte.byte) :=
  match l with
  | [] => Some []
  | [_] => None
  | [s; t] => Some [byte_a s t]
  | [s; t; u] => Some [byte_a s t; byte_b t u]
  | s :: t :: u :: v :: rest =>
      (λ r, byte_a s t :: byte_b t u :: byte_c u v :: r) <$> decode_sextets rest
  end.

Definition is_newline (c : ascii) : bool :=
  Ascii.eqb c "010"%char || Ascii.eqb c "013"%char.

(** [DecodeString]: carriage returns and line feeds are skipped, any
    character outside the alphabet is corrupt input ([None]). *)
Definition DecodeString (s : string) : option (list Byte.byte) :=
  mapM decode_char (List.filter (λ c, negb (is_newline c)) (list_ascii_of_string s))
    ≫= decode_sextets.

End base64.

(** ** Library substrate: [codes], [status], [errors], [net/http] *)

Module codes.
Definition Code : Type := N.
Definition OK : Code := 0%N.
Definition Canceled : Code := 1%N.
Definition Unknown : Code := 2%N.
Definition InvalidArgument : Code := 3%N.
Definition DeadlineExceeded : Code := 4%N.
Definition NotFound : Code := 5%N.
Definition AlreadyExists : Code := 6%N.
Definition PermissionDenied : Code := 7%N.
Definition ResourceExhausted : Code := 8%N.
Definition FailedPrecondition : Code := 9%N.
Definition Aborted : Code := 10%N.
Definition OutOfRange : Code := 11%N.
Definition Unimplemented : Code := 12%N.
Definition Internal : Code := 13%N.
Definition Unavailable : Code := 14%N.
Definition DataLoss : Code := 15%N.
Definition Unauthenticated : Code := 16%N.

(** [func (c Code) String() string] *)
Definition String (c : Code) : string :=
  match c with
  | 0%N => "OK"
  | 1%N => "Canceled"
  | 2%N => "Unknown"
  | 3%N => "InvalidArgument"
  | 4%N => "DeadlineExceeded"
  | 5%N => "NotFound"
  | 6%N => "AlreadyExists"
  | 7%N => "PermissionDenied"
  | 8%N => "ResourceExhausted"
  | 9%N => "FailedPrecondition"
  | 10%N => "Aborted"
  | 11%N => "OutOfRange"
  | 12%N => "Unimplemented"
  | 13%N => "Internal"
  | 14%N => "Unavailable"
  | 15%N => "DataLoss"
  | 16%N => "Unauthenticated"
  | _ => "Code(" +:+ NilZero.string_of_uint (N.to_uint c) +:+ ")"
  end.
End codes.

Module http.
Definition StatusProcessing : Z := 102.
Definition StatusOK : Z := 200.
Definition StatusBadRequest : Z := 400.
Definition StatusUnauthorized : Z := 401.
Definition StatusForbidden : Z := 403.
Definition StatusNotFound : Z := 404.
Definition StatusConflict : Z := 409.
Definition StatusPreconditionFailed : Z := 412.
Definition StatusTooManyRequests : Z := 429.
Definition StatusInternalServerError : Z := 500.
Definition StatusNotImplemented : Z := 501.
Definition StatusServiceUnavailable : Z := 503.
End http.

(** A [*status.Status]: a code and a message. *)
Record Status : Type := mkStatus { Code : codes.Code; Message : string }.

(** A value of interface type [error]: the text of [Error()] and the
    status the value carries, if it (or an error it wraps) has a
    [GRPCStatus()] method. *)
Record error : Type := mkError { Error : string; GRPCStatus : option Status }.

Module errors.
Definition New (text : string) : error := mkError text None.
End errors.

Module status.
(** [status.FromError] on a non-nil error: the carried status and
    [true], or an [Unknown] status made of the error text and [false]. *)
Definition FromError (err : error) : Status * bool :=
  match GRPCStatus err with
  | Some st => (st, true)
  | None => (mkStatus codes.Unknown (Error err), false)
  end.

(** [status.Errorf] (and [grpc.Errorf]) with a code other than [OK], on
    the formatted message: an error that carries the code and the
    message. *)
Definition Errorf (c : codes.Code) (msg : string) : error :=
  mkError ("rpc error: code = " +:+ codes.String c +:+ " desc = " +:+ msg)
    (Some (mkStatus c msg)).
End status.

(** A value of type [any] ([interface{}]) where the code expects an
    error: nil, an error, or a value of some other dynamic type, known by
    the name [%T] prints. *)
Inductive any : Type :=
  | AnyNil
  | AnyError (err : error)
  | AnyOther (T : string).

(** [fmt.Sprintf("%T", v)] *)
Definition typeName (v : any) : string :=
  match v with
  | AnyNil => "<nil>"
  | AnyError _ => "error"
  | AnyOther T => T
  end.

(** ** Library substrate: [metadata] and [context] *)

(** [metadata.MD], a [map[string][]string]. Its keys are the lower-case
    keys that [metadata.New] and [metadata.Pairs] produce, so reading an MD
    back from a context returns it as it was attached. *)
Abbreviation MD := (gmap string (list string)).

Module strings_.
Definition lower (c : ascii) : ascii :=
  let n := nat_of_ascii c in
  if (65 <=? n)%nat && (n <=? 90)%nat then ascii_of_nat (n + 32) else c.

Fixpoint ToLower (s : string) : string :=
  match s with
  | EmptyString => EmptyString
  | String c r => String (lower c) (ToLower r)
  end.

Fixpoint contains (c : ascii) (cutset : string) : bool :=
  match cutset with
  | EmptyString => false
  | String x r => Ascii.eqb c x || contains c r
  end.

(** [strings.TrimRight], for a cutset of ASCII characters: the string
    without its trailing characters that are in the cutset. *)
Fixpoint TrimRight (s cutset : string) : string :=
  match s with
  | EmptyString => EmptyString
  | String x r =>
      match TrimRight r cutset with
      | EmptyString => if contains x cutset then EmptyString else String x EmptyString
      | r' => String x r'
      end
  end.

(** [strings.HasPrefix] *)
Fixpoint HasPrefix (s prefix : string) {struct prefix} : bool :=
  match prefix, s with
  | EmptyString, _ => true
  | String p pr, String x r => Ascii.eqb x p && HasPrefix r pr
  | String _ _, EmptyString => false
  end.

(** [s[n:]] for [n] within the string. *)
Fixpoint from (n : nat) (s : string) : string :=
  match n, s with
  | O, _ => s
  | S n, String _ r => from n r
  | S _, EmptyString => EmptyString
  end.

(** [strings.TrimPrefix] *)
Definition TrimPrefix (s prefix : string) : string :=
  if HasPrefix s prefix then from (String.length prefix) s else s.
End strings_.

Module context.
(** What this package reads from a [context.Context]: the incoming and
    the outgoing metadata attached to it. A context is a value; deriving
    one leaves the parent as it was. *)
Record Context : Type := mkContext { incoming : option MD; outgoing : option MD }.

Definition Background : Context := mkContext None None.
End context.

Module metadata.
(** [New]: one single-element entry per header, under its lower-case key. *)
Definition New (m : gmap string string) : MD :=
  foldr (λ '(k, v) md,
           let key := strings_.ToLower k in
           <[key := (default [] (md !! key) ++ [v])%list]> md)
        ∅ (map_to_list m).

(** [append(out[k], v...)] for every entry of every MD, in order. *)
Definition Join (mds : list MD) : MD :=
  foldl (union_with (λ a b, Some (a ++ b)%list)) ∅ mds.

Definition NewIncomingContext (ctx : context.Context) (md : MD) : context.Context :=
  context.mkContext (Some md) (context.outgoing ctx).

Definition NewOutgoingContext (ctx : context.Context) (md : MD) : context.Context :=
  context.mkContext (context.incoming ctx) (Some md).

(** [(md, ok)] as an option. *)
Definition FromOutgoingContext (ctx : context.Context) : option MD :=
  context.outgoing ctx.
End metadata.

(** ** Library substrate: [proto] *)

Module proto.
(** The message type of a service, with its wire format. [Unmarshal]
    resets the target before it parses, and returns it with the error. *)
Class Message (M : Type) : Type := {
  Marshal : M → list Byte.byte * option error;
  Unmarshal : list Byte.byte → M → M * option error;
}.

Definition Clone {M : Type} (m : M) : M := m.
End proto.

(** ** The envelope: [events.APIGatewayProxyRequest], [Request], [Response] *)

Module ProxyRequest.
Record t : Type := mk {
  Path : string;
  Headers : gmap string string;
  MultiValueHeaders : MD;
  Body : string;
  IsBase64Encoded : bool;
}.
End ProxyRequest.

Record Request : Type := mkRequest {
  APIGatewayProxyRequest : ProxyRequest.t;
  HandlerKey : string;
}.

(** [Response] embeds one [*events.APIGatewayProxyResponse] and nothing
    else: the model identifies the two. *)
Module Response.
Record t : Type := mk {
  StatusCode : Z;
  Headers : gmap string string;
  MultiValueHeaders : MD;
  Body : string;
  IsBase64Encoded : bool;
}.

Definition setStatusCode (v : Z) (r : t) : t :=
  mk v (Headers r) (MultiValueHeaders r) (Body r) (IsBase64Encoded r).
Definition setMultiValueHeaders (v : MD) (r : t) : t :=
  mk (StatusCode r) (Headers r) v (Body r) (IsBase64Encoded r).
Definition setBody (v : string) (r : t) : t :=
  mk (StatusCode r) (Headers r) (MultiValueHeaders r) v (IsBase64Encoded r).
Definition setIsBase64Encoded (v : bool) (r : t) : t :=
  mk (StatusCode r) (Headers r) (MultiValueHeaders r) (Body r) v.
End Response.

(** The error [DecodeString] returns on corrupt input (the offset in its
    text is left out). *)
Definition CorruptInputError : error := errors.New "illegal base64 data".

(** ** Library substrate: [grpc] service descriptors and the stream contract *)

Module grpc.
Record MethodDesc : Type := mkMethodDesc { MethodName : string }.

Record StreamDesc (H : Type) : Type := mkStreamDesc {
  StreamName : string;
  Handler : H;
  ServerStreams : bool;
  ClientStreams : bool;
}.
Arguments mkStreamDesc {H}.
Arguments StreamName {H}.
Arguments Handler {H}.
Arguments ServerStreams {H}.
Arguments ClientStreams {H}.

Record ServiceDesc (H : Type) : Type := mkServiceDesc {
  ServiceName : string;
  Methods : list MethodDesc;
  Streams : list (StreamDesc H);
}.
Arguments mkServiceDesc {H}.
Arguments ServiceName {H}.
Arguments Methods {H}.
Arguments Streams {H}.

(** The body of a [grpc.StreamHandler], as the calls it makes on the
    [grpc.ServerStream] it is given, each continued with what the call
    returned, up to the error it returns itself. [PutWorld] and
    [AskWorld] are its effects on, and reads of, the rest of the process. *)
Inductive Calls (W M : Type) : Type :=
  | Return (err : option error)
  | SendMsg (m : option M) (k : option error → Calls W M)
  | RecvMsg (m : M) (k : M → option error → Calls W M)
  | SendHeader (md : MD) (k : option error → Calls W M)
  | SetHeader (md : MD) (k : option error → Calls W M)
  | SetTrailer (md : MD) (k : Calls W M)
  | GetContext (k : context.Context → Calls W M)
  | PutWorld (f : W → W) (k : Calls W M)
  | AskWorld (k : W → Calls W M).
Arguments Return {W M}.
Arguments SendMsg {W M}.
Arguments RecvMsg {W M}.
Arguments SendHeader {W M}.
Arguments SetHeader {W M}.
Arguments SetTrailer {W M}.
Arguments GetContext {W M}.
Arguments PutWorld {W M}.
Arguments AskWorld {W M}.
End grpc.

(** What a registration can end in: the controller with its new
    bindings, or a run-time panic of the reflection calls. *)
Inductive Outcome (A : Type) : Type :=
  | Registered (a : A)
  | Panic (msg : string).
Arguments Registered {A}.
Arguments Panic {A}.

(** [type grpcServerStream struct]. Its [res] is the response of the
    handler that built the adapter: one object under two names. *)
Module grpcServerStream.
Record t : Type := mk {
  ctx : context.Context;
  req : Request;
  res : Response.t;
}.

Definition setRes (r : Response.t) (g : t) : t := mk (ctx g) (req g) r.
Definition setCtx (c : context.Context) (g : t) : t := mk c (req g) (res g).
End grpcServerStream.

(** ** The package *)

Section lambda.

Context {W : Type} {M : Type} `{!proto.Message M}.

(** [func (r *Request) UnmarshalProtobuf(m proto.Message) error] *)
Definition UnmarshalProtobuf (r : Request) (m : M) : M * option error :=
  if ProxyRequest.IsBase64Encoded (APIGatewayProxyRequest r) then
    match base64.DecodeString (ProxyRequest.Body (APIGatewayProxyRequest r)) with
    | None => (m, Some CorruptInputError)
    | Some msg => proto.Unmarshal msg m
    end
  else
    proto.Unmarshal (list_byte_of_string (ProxyRequest.Body (APIGatewayProxyRequest r))) m.

(** [func (r *Response) MarshalProtobuf(m proto.Message) error] *)
Definition MarshalProtobuf (r : Response.t) (m : M) : Response.t * option error :=
  match proto.Marshal m with
  | (_, Some err) => (r, Some err)
  | (body, None) =>
      if (0 <? length body)%nat then
        (Response.setIsBase64Encoded true
           (Response.setBody (base64.EncodeToString body) r), None)
      else
        (Response.setIsBase64Encoded false (Response.setBody "" r), None)
  end.

(** [func convertResultError(res *Response, err any) error] *)
Definition convertResultError (res : Response.t) (err : any) : Response.t * option error :=
  match err with
  | AnyError err =>
      let '(st, ok) := status.FromError err in
      let res :=
        if ok then
          let res := Response.setBody (Message st) res in
          let res := Response.setIsBase64Encoded false res in
          let code := Code st in
          if (code =? codes.InvalidArgument)%N then
            Response.setStatusCode http.StatusBadRequest res
          else if (code =? codes.NotFound)%N then
            Response.setStatusCode http.StatusNotFound res
          else if (code =? codes.AlreadyExists)%N then
            Response.setStatusCode http.StatusConflict res
          else if (code =? codes.PermissionDenied)%N then
            Response.setStatusCode http.StatusForbidden res
          else if (code =? codes.Unauthenticated)%N then
            Response.setStatusCode http.StatusUnauthorized res
          else if (code =? codes.ResourceExhausted)%N then
            Response.setStatusCode http.StatusTooManyRequests res
          else if (code =? codes.FailedPrecondition)%N then
            Response.setStatusCode http.StatusPreconditionFailed res
          else if (code =? codes.Aborted)%N then
            Response.setStatusCode http.StatusConflict res
          else if (code =? codes.OutOfRange)%N then
            Response.setStatusCode http.StatusBadRequest res
          else if (code =? codes.Unimplemented)%N then
            Response.setStatusCode http.StatusNotImplemented res
          else if (code =? codes.Internal)%N then
            Response.setStatusCode http.StatusInternalServerError res
          else if (code =? codes.Unavailable)%N then
            Response.setStatusCode http.StatusServiceUnavailable res
          else if (code =? codes.DataLoss)%N then
            Response.setStatusCode http.StatusInternalServerError res
          else res
        else res in
      (res, Some err)
  | _ =>
      let res := Response.setStatusCode http.StatusInternalServerError res in
      let res := Response.setBody ("Invalid error type: " +:+ typeName err) res in
      (res, Some (errors.New (Response.Body res)))
  end.

(** [type Matcher[K comparable] func(context.Context, *events.APIGatewayProxyRequest) (K, error)],
    at [K = string]. *)
Definition Matcher : Type :=
  context.Context → ProxyRequest.t → string * option error.

(** [type Handler func(context.Context, *Request, *Response) error]: the
    response it leaves, its error, and the world it leaves. *)
Definition Handler : Type :=
  context.Context → Request → Response.t → W → Response.t * option error * W.

Record Controller : Type := mkController {
  ctlMatcher : Matcher;
  handlers : gmap string Handler;
}.

(** [func NewController[D ControllerDependency]() *Controller[D]], given
    the [Matcher] its caller sets on the new controller. *)
Definition NewController (m : Matcher) : Controller := mkController m ∅.

(** [func (c *Controller[D]) RegisterHandler(key string, handler Handler)] *)

Definition RegisterHandler (key : string) (handler : Handler) (c : Controller) : Controller :=
  mkController (ctlMatcher c) (<[key := handler]> (handlers c)).

(** *** The synthetic stream adapter *)

Definition newGrpcServerStream (ctx : context.Context) (req : Request) (res : Response.t) :
  grpcServerStream.t := grpcServerStream.mk ctx req res.

(** [func (g *grpcServerStream) Context() context.Context] *)
Definition Context (g : grpcServerStream.t) : context.Context := grpcServerStream.ctx g.

(** [func (g *grpcServerStream) SendMsg(m interface{}) error] *)
Definition SendMsg (g : grpcServerStream.t) (m : option M) : grpcServerStream.t * option error :=
  match m with
  | None => (grpcServerStream.setRes (Response.setBody "" (grpcServerStream.res g)) g, None)
  | Some m =>
      match MarshalProtobuf (grpcServerStream.res g) m with
      | (r, Some err) =>
          let r := Response.setStatusCode http.StatusInternalServerError r in
          let r := Response.setBody ("Failed to marshal response: " +:+ Error err) r in
          (grpcServerStream.setRes r g, Some err)
      | (r, None) => (grpcServerStream.setRes r g, None)
      end
  end.

(** [func (g *grpcServerStream) RecvMsg(m interface{}) error] *)
Definition RecvMsg (g : grpcServerStream.t) (m : M) : grpcServerStream.t * M * option error :=
  match UnmarshalProtobuf (grpcServerStream.req g) m with
  | (m, Some err) =>
      let r := Response.setStatusCode http.StatusBadRequest (grpcServerStream.res g) in
      let r := Response.setBody ("Failed to unmarshal request: " +:+ Error err) r in
      (grpcServerStream.setRes r g, m, Some err)
  | (m, None) => (g, m, None)
  end.

(** [func (g *grpcServerStream) SetTrailer(m metadata.MD)] *)
Definition SetTrailer (g : grpcServerStream.t) (m : MD) : grpcServerStream.t :=
  let outMeta := default ∅ (metadata.FromOutgoingContext (grpcServerStream.ctx g)) in
  grpcServerStream.setCtx
    (metadata.NewOutgoingContext (grpcServerStream.ctx g) (metadata.Join [outMeta; m])) g.

(** [func (g *grpcServerStream) SendHeader(m metadata.MD) error] *)
Definition SendHeader (g : grpcServerStream.t) (m : MD) : grpcServerStream.t * option error :=
  (SetTrailer g m, None).

(** [func (g *grpcServerStream) SetHeader(m metadata.MD) error] *)
Definition SetHeader (g : grpcServerStream.t) (m : MD) : grpcServerStream.t * option error :=
  (SetTrailer g m, None).

(** A stream handler body run against the adapter. *)
Fixpoint runCalls (p : grpc.Calls W M) (g : grpcServerStream.t) (w : W) :
  grpcServerStream.t * option error * W :=
  match p with
  | grpc.Return err => (g, err, w)
  | grpc.SendMsg m k => let '(g, err) := SendMsg g m in runCalls (k err) g w
  | grpc.RecvMsg m k => let '(g, m, err) := RecvMsg g m in runCalls (k m err) g w
  | grpc.SendHeader md k => let '(g, err) := SendHeader g md in runCalls (k err) g w
  | grpc.SetHeader md k => let '(g, err) := SetHeader g md in runCalls (k err) g w
  | grpc.SetTrailer md k => runCalls k (SetTrailer g md) w
  | grpc.GetContext k => runCalls (k (Context g)) g w
  | grpc.PutWorld f k => runCalls k g (f w)
  | grpc.AskWorld k => runCalls (k w) g w
  end.

(** *** The method binder *)

(** What [methodCaller.Call] returns, as the handler reads it: a slice
    of two values, the first nil or a [proto.Message] and the second any
    value, or a slice of another length, known by the text [%+v] prints. *)
Inductive CallResult : Type :=
  | TwoValues (out : option M) (err : any)
  | OtherValues (repr : string).

(** A method of the service implementation as [reflect] sees it:
    [NewInput] is the zero message of its second parameter's element
    type, absent when [In(1)], [Elem()] or the assertion to
    [proto.Message] panics. [Call] gives the result slice, the context
    the method holds when it returns (derived from the one it was given;
    the caller's context value is not changed by it) and the world. *)
Record Method : Type := mkMethod {
  NewInput : option M;
  Call : context.Context → M → W → CallResult * context.Context * W;
}.

(** The service implementation [svc], by method name. *)
Definition Service : Type := gmap string Method.

Definition MethodByName (svc : Service) (name : string) : option Method := svc !! name.

Definition StreamHandler : Type := Service → grpc.Calls W M.

Definition routingKey (serviceName methodName : string) : string :=
  "/" +:+ serviceName +:+ "/" +:+ methodName.

(** The handler bound to a unary method (the closure of the first loop). *)
Definition unaryHandler (methodCaller : Method) (methodInput : M) : Handler :=
  λ ctx req res w,
    let inMeta :=
      metadata.Join [metadata.New (ProxyRequest.Headers (APIGatewayProxyRequest req));
                     ProxyRequest.MultiValueHeaders (APIGatewayProxyRequest req)] in
    let callCtx :=
      metadata.NewOutgoingContext (metadata.NewIncomingContext ctx inMeta) (metadata.New ∅) in
    let callInput := proto.Clone methodInput in
    match UnmarshalProtobuf req callInput with
    | (_, Some err) =>
        let res := Response.setStatusCode http.StatusBadRequest res in
        let res := Response.setBody ("Failed to unmarshal request: " +:+ Error err) res in
        (res, Some err, w)
    | (callInput, None) =>
        let '(result, _, w) := Call methodCaller callCtx callInput w in
        let res :=
          match metadata.FromOutgoingContext ctx with
          | Some outMeta => Response.setMultiValueHeaders outMeta res
          | None => res
          end in
        match result with
        | OtherValues repr =>
            let res := Response.setStatusCode http.StatusInternalServerError res in
            let res := Response.setBody ("Invalid method output: " +:+ repr) res in
            (res, None, w)
        | TwoValues out AnyNil =>
            match out with
            | None => (Response.setBody "" res, None, w)
            | Some out =>
                match MarshalProtobuf res out with
                | (res, Some err) =>
                    let res := Response.setStatusCode http.StatusInternalServerError res in
                    let res := Response.setBody ("Failed to marshal response: " +:+ Error err) res in
                    (res, Some err, w)
                | (res, None) => (res, None, w)
                end
            end
        | TwoValues _ err =>
            let '(res, err) := convertResultError res err in (res, err, w)
        end
    end.

(** The handler bound to a server-streaming descriptor (the closure of
    the second loop). The adapter and the handler share one response:
    it is read back from the adapter after the call. *)
Definition streamHandler (stream : grpc.StreamDesc StreamHandler) (svc : Service) : Handler :=
  λ ctx req res w,
    let inMeta :=
      metadata.Join [metadata.New (ProxyRequest.Headers (APIGatewayProxyRequest req));
                     ProxyRequest.MultiValueHeaders (APIGatewayProxyRequest req)] in
    let callCtx :=
      metadata.NewOutgoingContext (metadata.NewIncomingContext ctx inMeta) (metadata.New ∅) in
    let serverStream := newGrpcServerStream callCtx req res in
    let '(serverStream, err, w) := runCalls (grpc.Handler stream svc) serverStream w in
    let res := grpcServerStream.res serverStream in
    let res :=
      Response.setMultiValueHeaders
        (default ∅ (metadata.FromOutgoingContext (grpcServerStream.ctx serverStream))) res in
    match err with
    | Some err => let '(res, err) := convertResultError res (AnyError err) in (res, err, w)
    | None => (Response.setStatusCode http.StatusProcessing res, None, w)
    end.

(** The first loop of [RegisterGRPCService], over [desc.Methods]. *)
Fixpoint registerMethods (serviceName : string) (methods : list grpc.MethodDesc)
    (svc : Service) (c : Controller) : Outcome Controller :=
  match methods with
  | [] => Registered c
  | method :: rest =>
      let key := routingKey serviceName (grpc.MethodName method) in
      match MethodByName svc (grpc.MethodName method) with
      | None => Panic "reflect: call of reflect.Value.Type on zero Value"
      | Some methodCaller =>
          match NewInput methodCaller with
          | None => Panic "reflect: the method input is not a pointer to a proto.Message"
          | Some methodInput =>
              registerMethods serviceName rest svc
                (RegisterHandler key (unaryHandler methodCaller methodInput) c)
          end
      end
  end.

(** The second loop of [RegisterGRPCService], over [desc.Streams]. Each
    closure holds the descriptor of its own iteration. *)
Fixpoint registerStreams (serviceName : string)
    (streams : list (grpc.StreamDesc StreamHandler)) (svc : Service) (c : Controller) :
    Controller :=
  match streams with
  | [] => c
  | stream :: rest =>
      let key := routingKey serviceName (grpc.StreamName stream) in
      if grpc.ServerStreams stream && negb (grpc.ClientStreams stream) then
        registerStreams serviceName rest svc
          (RegisterHandler key (streamHandler stream svc) c)
      else
        registerStreams serviceName rest svc c
  end.

(** [func (c *Controller[D]) RegisterGRPCService(desc grpc.ServiceDesc, svc interface{})] *)
Definition RegisterGRPCService (desc : grpc.ServiceDesc StreamHandler) (svc : Service)
    (c : Controller) : Outcome Controller :=
  match registerMethods (grpc.ServiceName desc) (grpc.Methods desc) svc c with
  | Panic msg => Panic msg
  | Registered c =>
      Registered (registerStreams (grpc.ServiceName desc) (grpc.Streams desc) svc c)
  end.

(** *** The dispatcher *)

(** The response [HandleLambda] starts from. *)
Definition initialResponse : Response.t :=
  Response.mk http.StatusNotFound ∅ ∅ "" false.

(** [func (c *Controller[D]) HandleLambda(ctx, proxyReq)], returning the
    response and the error, with the world it leaves and the messages it logged. *)
Definition HandleLambda (c : Controller) (ctx : context.Context)
    (proxyReq : ProxyRequest.t) (w : W) :
    (Response.t * option error) * (W * list string) :=
  let res := initialResponse in
  let '(key, err) := ctlMatcher c ctx proxyReq in
  match err with
  | Some err =>
      let '(st, ok) := status.FromError err in
      if ok && (Code st =? codes.NotFound)%N then
        ((res, None), (w, ["Matcher returned not found"]))
      else
        let res := Response.setStatusCode http.StatusInternalServerError res in
        ((res, None), (w, ["Failed to match request"]))
  | None =>
      match handlers c !! key with
      | None => ((res, None), (w, ["No handler registered for key"]))
      | Some handler =>
          let req := mkRequest proxyReq key in
          let res := Response.setStatusCode http.StatusOK res in
          match handler ctx req res w with
          | (res, Some err, w) =>
              let res :=
                if Response.StatusCode res <? 400
                then Response.setStatusCode http.StatusInternalServerError res
                else res in
              ((res, None), (w, ["Failed to handle request"]))
          | (res, None, w) => ((res, None), (w, []))
          end
      end
  end.

End lambda.

(** ** Reference definitions for the statements *)




(** The invariant the specification states of a response: the flag is set
    exactly when the body is the encoding of a non-empty payload. *)
Definition base64FlagInvariant (r : Response.t) : Prop :=
  Response.IsBase64Encoded r = true ↔
  ∃ payload, payload ≠ [] ∧ Response.Body r = base64.EncodeToString payload.

Section reference.

Context {W : Type} {M : Type} `{!proto.Message M}.

(** The context both kinds of bound handler build for the call. *)
Definition callContext (ctx : context.Context) (req : Request) : context.Context :=
  metadata.NewOutgoingContext
    (metadata.NewIncomingContext ctx
       (metadata.Join [metadata.New (ProxyRequest.Headers (APIGatewayProxyRequest req));
                       ProxyRequest.MultiValueHeaders (APIGatewayProxyRequest req)]))
    (metadata.New ∅).


(** A descriptor without its client-streaming and bidirectional
    stream descriptors. *)
Definition withoutClientStreams (desc : grpc.ServiceDesc (@StreamHandler W M)) :
    grpc.ServiceDesc (@StreamHandler W M) :=
  grpc.mkServiceDesc (grpc.ServiceName desc) (grpc.Methods desc)
    (List.filter (λ s, negb (grpc.ClientStreams s)) (grpc.Streams desc)).

End reference.

(** ** A concrete service *)

Module scenario.

(** A message type whose wire format is its content. *)
#[global] Instance raw : proto.Message (list Byte.byte) := {|
  proto.Marshal m := (m, None);
  proto.Unmarshal body _ := (body, None);
|}.

(** The world counts the service methods that ran. *)
Definition World : Type := nat.

(** The bytes ["\x0a\x03abc"]. *)
Definition abc : list Byte.byte := [Byte.x0a; Byte.x03; Byte.x61; Byte.x62; Byte.x63].

Definition notFound : error :=
  mkError "rpc error: code = NotFound desc = Not found"
    (Some (mkStatus codes.NotFound "Not found")).

(** A matcher: the path is the key, but for one path it reports
    not-found and for another it fails otherwise. *)
Definition matcher : Matcher := λ _ r,
  if String.eqb (ProxyRequest.Path r) "/outside" then ("", Some notFound)
  else if String.eqb (ProxyRequest.Path r) "/broken" then ("", Some (errors.New "matcher failed"))
  else (ProxyRequest.Path r, None).

Definition request (path body : string) (isBase64Encoded : bool) : ProxyRequest.t :=
  ProxyRequest.mk path ∅ ∅ body isBase64Encoded.

Definition requestId : MD := {[ "x-request-id" := ["42"] ]}.

(** [Echo] attaches [x-request-id] to the outgoing metadata of its
    context and returns its input. *)
Definition Echo : @Method World (list Byte.byte) := {|
  NewInput := Some [];
  Call := λ ctx m w,
    (TwoValues (Some m) AnyNil,
     metadata.NewOutgoingContext ctx
       (metadata.Join [default ∅ (metadata.FromOutgoingContext ctx); requestId]),
     S w);
|}.

(** [Ping] returns a nil message and a nil error. *)
Definition Ping : @Method World (list Byte.byte) := {|
  NewInput := Some [];
  Call := λ ctx m w, (TwoValues None AnyNil, ctx, S w);
|}.

Definition svc : @Service World (list Byte.byte) :=
  {[ "Echo" := Echo; "Ping" := Ping ]}.

(** [Watch] sets a header, sends a header and sets a trailer. *)
Definition Watch : @StreamHandler World (list Byte.byte) := λ _,
  grpc.SetHeader {[ "a" := ["1"] ]} (λ _,
  grpc.SendHeader {[ "a" := ["2"]; "b" := ["x"] ]} (λ _,
  grpc.SetTrailer {[ "b" := ["y"] ]}
  (grpc.PutWorld S (grpc.Return None)))).

(** [Flush] sends a message and then sends nil. *)
Definition Flush : @StreamHandler World (list Byte.byte) := λ _,
  grpc.SendMsg (Some abc) (λ _,
  grpc.SendMsg None (λ _,
  grpc.PutWorld S (grpc.Return None))).

Definition Chat : @StreamHandler World (list Byte.byte) := λ _,
  grpc.PutWorld S (grpc.Return None).

Definition watchDesc : grpc.StreamDesc StreamHandler := grpc.mkStreamDesc "Watch" Watch true false.
Definition flushDesc : grpc.StreamDesc StreamHandler := grpc.mkStreamDesc "Flush" Flush true false.
(** A bidirectional stream descriptor. *)
Definition chatDesc : grpc.StreamDesc StreamHandler := grpc.mkStreamDesc "Chat" Chat true true.

Definition desc : grpc.ServiceDesc StreamHandler :=
  grpc.mkServiceDesc "svc"
    [grpc.mkMethodDesc "Echo"; grpc.mkMethodDesc "Ping"]
    [watchDesc; flushDesc; chatDesc].

Definition chatOnly : grpc.ServiceDesc StreamHandler :=
  grpc.mkServiceDesc "svc" [] [chatDesc].

Definition empty : @Controller World := NewController matcher.

(** The controller after [RegisterGRPCService desc svc]. *)
Definition controller : @Controller World :=
  match RegisterGRPCService desc svc empty with
  | Registered c => c
  | Panic _ => empty
  end.

(** A hand-registered handler that fails and leaves the response alone. *)
Definition failing : @Handler World := λ _ _ res w, (res, Some (errors.New "boom"), S w).

Definition withFailing : @Controller World := RegisterHandler "/fail" failing empty.

End scenario.

(** ** More reference definitions *)

Section reference_binder.

Context {W : Type} {M : Type} `{!proto.Message M}.

(** A method descriptor the binder can bind: the service has a method of
    that name and its input is a message. *)
Definition bindable (svc : @Service W M) (m : grpc.MethodDesc) : Prop :=
  ∃ caller input,
    MethodByName svc (grpc.MethodName m) = Some caller ∧ NewInput caller = Some input.

(** The routing keys a descriptor's bindings go under. *)
Definition boundKeys (desc : grpc.ServiceDesc (@StreamHandler W M)) : list string :=
  ((λ m, routingKey (grpc.ServiceName desc) (grpc.MethodName m)) <$> grpc.Methods desc)
  ++ ((λ s, routingKey (grpc.ServiceName desc) (grpc.StreamName s))
        <$> List.filter (λ s, grpc.ServerStreams s && negb (grpc.ClientStreams s))
              (grpc.Streams desc)).

End reference_binder.

(** ** The URL path matcher *)

(** [func MakeUrlPathMatcher(basePath string) Matcher[string]] *)
Definition MakeUrlPathMatcher (basePath : string) : Matcher :=
  let basePath := strings_.TrimRight basePath "/" in
  λ _ req,
    let urlPath := strings_.TrimRight (ProxyRequest.Path req) "/" in
    if (String.length basePath =? 0)%nat then (urlPath, None)
    else if negb (strings_.HasPrefix urlPath basePath) then
      ("",
       Some (status.Errorf codes.NotFound
               ("Not found (couldn't match prefix " +:+ basePath
                +:+ " for url path " +:+ urlPath +:+ ")")))
    else (strings_.TrimPrefix urlPath basePath, None).

(** ** A second concrete service *)

Module catalog.

(** A message that is a document of bytes, or a value the serializer
    refuses. *)
Inductive Doc : Type :=
  | Good (content : list Byte.byte)
  | Bad.

Definition unserializable : error := errors.New "proto: cannot marshal".

#[global] Instance doc : proto.Message Doc := {|
  proto.Marshal m :=
    match m with
    | Good content => (content, None)
    | Bad => ([], Some unserializable)
    end;
  proto.Unmarshal body _ := (Good body, None);
|}.

Definition World : Type := nat.

Definition hello : list Byte.byte := [Byte.x68; Byte.x69].

Definition recordMissing : error := status.Errorf codes.NotFound "record missing".
Definition canceled : error := status.Errorf codes.Canceled "gave up".
Definition plain : error := errors.New "disk full".

Definition method (result : Doc → @CallResult Doc) : @Method World Doc := {|
  NewInput := Some (Good []);
  Call := λ ctx m w, (result m, ctx, S w);
|}.

(** Methods by what they return: the input, a status error with a code
    of the table, one with a code outside it, an error without status,
    a message that does not serialize, and a single value. *)
Definition svc : @Service World Doc :=
  {[ "Echo" := method (λ m, TwoValues (Some m) AnyNil);
     "Find" := method (λ _, TwoValues None (AnyError recordMissing));
     "Cancel" := method (λ _, TwoValues None (AnyError canceled));
     "Store" := method (λ _, TwoValues None (AnyError plain));
     "Render" := method (λ _, TwoValues (Some Bad) AnyNil);
     "Odd" := method (λ _, OtherValues "[<*catalog.Doc Value>]");
     "Raw" := {| NewInput := None; Call := λ ctx m w, (TwoValues None AnyNil, ctx, w) |} ]}.

(** [Tail] sets a trailer, receives the request and fails with a status. *)
Definition Tail : @StreamHandler World Doc := λ _,
  grpc.SetTrailer {[ "x-seen" := ["1"] ]}
  (grpc.RecvMsg (Good []) (λ _ _,
   grpc.Return (Some recordMissing))).

(** [Copy] receives the request and sends it back. *)
Definition Copy : @StreamHandler World Doc := λ _,
  grpc.RecvMsg (Good []) (λ m err,
    match err with
    | Some e => grpc.Return (Some e)
    | None => grpc.SendMsg (Some m) (λ err, grpc.Return err)
    end).

Definition tailDesc : grpc.StreamDesc StreamHandler := grpc.mkStreamDesc "Tail" Tail true false.
Definition copyDesc : grpc.StreamDesc StreamHandler := grpc.mkStreamDesc "Copy" Copy true false.
Definition uploadDesc : grpc.StreamDesc StreamHandler := grpc.mkStreamDesc "Upload" Copy false true.

Definition desc : grpc.ServiceDesc StreamHandler :=
  grpc.mkServiceDesc "catalog"
    [grpc.mkMethodDesc "Echo"; grpc.mkMethodDesc "Find"; grpc.mkMethodDesc "Cancel";
     grpc.mkMethodDesc "Store"; grpc.mkMethodDesc "Render"; grpc.mkMethodDesc "Odd"]
    [tailDesc; copyDesc; uploadDesc].

(** A descriptor naming a method the service does not have, and one
    naming a method whose input is not a message. *)
Definition missingDesc : grpc.ServiceDesc (@StreamHandler World Doc) :=
  grpc.mkServiceDesc "catalog" [grpc.mkMethodDesc "Echo"; grpc.mkMethodDesc "Drop"] [].
Definition rawDesc : grpc.ServiceDesc (@StreamHandler World Doc) :=
  grpc.mkServiceDesc "catalog" [grpc.mkMethodDesc "Raw"] [].

Definition empty : @Controller World := NewController (MakeUrlPathMatcher "/api/").

Definition controller : @Controller World :=
  match RegisterGRPCService desc svc empty with
  | Registered c => c
  | Panic _ => empty
  end.

Definition request (path body : string) (isBase64Encoded : bool) : ProxyRequest.t :=
  ProxyRequest.mk path ∅ ∅ body isBase64Encoded.

(** Two hand-written handlers for one key. *)
Definition first : @Handler World := λ _ _ res w, (Response.setBody "first" res, None, w).
Definition second : @Handler World := λ _ _ res w, (Response.setBody "second" res, None, w).

End catalog.

(** * Properties *)

(** ** [encoding/base64]: decoding inverts encoding *)

Module base64_facts.
Import base64.

Lemma decode_encode_char (s : sextet) : decode_char (encode_char s) = Some s.
Proof.
  destruct s as [[[[[c5 c4] c3] c2] c1] c0].
  destruct c5, c4, c3, c2, c1, c0; vm_compute; reflexivity.
Qed.

Lemma encode_char_not_newline (s : sextet) : is_newline (encode_char s) = false.
Proof.
  destruct s as [[[[[c5 c4] c3] c2] c1] c0].
  destruct c5, c4, c3, c2, c1, c0; vm_compute; reflexivity.
Qed.

(** The bits of three bytes survive the regrouping into sextets. The
    first byte needs the first two sextets only, the second the middle
    two. *)
Lemma byte_a_split3 (x y z : Byte.byte) :
  let '(s, t, _, _) := split3 x y z in byte_a s t = x.
Proof.
  unfold split3.
  pose proof (Byte.of_bits_to_bits x) as E.
  destruct (Byte.to_bits x) as (x0 & x1 & x2 & x3 & x4 & x5 & x6 & x7).
  destruct (Byte.to_bits y) as (y0 & y1 & y2 & y3 & y4 & y5 & y6 & y7).
  destruct (Byte.to_bits z) as (z0 & z1 & z2 & z3 & z4 & z5 & z6 & z7).
  exact E.
Qed.

Lemma byte_b_split3 (x y z : Byte.byte) :
  let '(_, t, u, _) := split3 x y z in byte_b t u = y.
Proof.
  unfold split3.
  pose proof (Byte.of_bits_to_bits y) as E.
  destruct (Byte.to_bits x) as (x0 & x1 & x2 & x3 & x4 & x5 & x6 & x7).
  destruct (Byte.to_bits y) as (y0 & y1 & y2 & y3 & y4 & y5 & y6 & y7).
  destruct (Byte.to_bits z) as (z0 & z1 & z2 & z3 & z4 & z5 & z6 & z7).
  exact E.
Qed.

Lemma byte_c_split3 (x y z : Byte.byte) :
  let '(_, _, u, v) := split3 x y z in byte_c u v = z.
Proof.
  unfold split3.
  pose proof (Byte.of_bits_to_bits z) as E.
  destruct (Byte.to_bits x) as (x0 & x1 & x2 & x3 & x4 & x5 & x6 & x7).
  destruct (Byte.to_bits y) as (y0 & y1 & y2 & y3 & y4 & y5 & y6 & y7).
  destruct (Byte.to_bits z) as (z0 & z1 & z2 & z3 & z4 & z5 & z6 & z7).
  exact E.
Qed.

(** Induction three bytes at a time, the way the encoder consumes its input. *)
Lemma quantum_ind (P : list Byte.byte → Prop) :
  P [] → (∀ x, P [x]) → (∀ x y, P [x; y]) →
  (∀ x y z rest, P rest → P (x :: y :: z :: rest)) →
  ∀ l, P l.
Proof.
  intros H0 H1 H2 H3.
  fix IH 1.
  intros [|x [|y [|z rest]]]; [exact H0 | apply H1 | apply H2 |].
  apply H3, IH.
Qed.

Lemma decode_encode_sextets (src : list Byte.byte) :
  decode_sextets (encode_sextets src) = Some src.
Proof.
  induction src as [|x|x y|x y z rest IH] using quantum_ind.
  - reflexivity.
  - cbn [encode_sextets].
    pose proof (byte_a_split3 x zero zero) as Ha.
    destruct (split3 x zero zero) as [[[s t] u] v]. cbn. by rewrite Ha.
  - cbn [encode_sextets].
    pose proof (byte_a_split3 x y zero) as Ha.
    pose proof (byte_b_split3 x y zero) as Hb.
    destruct (split3 x y zero) as [[[s t] u] v]. cbn. by rewrite Ha, Hb.
  - cbn [encode_sextets].
    pose proof (byte_a_split3 x y z) as Ha.
    pose proof (byte_b_split3 x y z) as Hb.
    pose proof (byte_c_split3 x y z) as Hc.
    destruct (split3 x y z) as [[[s t] u] v].
    cbn [decode_sextets]. rewrite IH. cbn. by rewrite Ha, Hb, Hc.
Qed.

Lemma decode_encode_chars (l : list sextet) :
  mapM decode_char (encode_char <$> l) = Some l.
Proof.
  induction l as [|s l IH]; [reflexivity|].
  rewrite fmap_cons. cbn [mapM]. rewrite decode_encode_char, IH. reflexivity.
Qed.

Lemma filter_encoded (l : list sextet) :
  List.filter (λ c, negb (is_newline c)) (encode_char <$> l) = encode_char <$> l.
Proof.
  induction l as [|s l IH]; [reflexivity|].
  rewrite fmap_cons. cbn [List.filter]. rewrite encode_char_not_newline, IH. reflexivity.
Qed.

Lemma DecodeString_EncodeToString (src : list Byte.byte) :
  DecodeString (EncodeToString src) = Some src.
Proof.
  unfold DecodeString, EncodeToString.
  rewrite list_ascii_of_string_of_list_ascii, filter_encoded, decode_encode_chars.
  cbn. apply decode_encode_sextets.
Qed.

Lemma encode_sextets_nonempty (src : list Byte.byte) :
  src ≠ [] → encode_sextets src ≠ [].
Proof.
  destruct src as [|x [|y [|z rest]]]; [done | | |]; intros _; cbn [encode_sextets].
  - by destruct (split3 x zero zero) as [[[s t] u] v].
  - by destruct (split3 x y zero) as [[[s t] u] v].
  - by destruct (split3 x y z) as [[[s t] u] v].
Qed.

Lemma EncodeToString_nonempty (src : list Byte.byte) :
  src ≠ [] → EncodeToString src ≠ "".
Proof.
  intros Hsrc. unfold EncodeToString.
  pose proof (encode_sextets_nonempty src Hsrc) as Hne.
  destruct (encode_sextets src); [done|]. cbn. discriminate.
Qed.

End base64_facts.

Example base64_Man :
  base64.EncodeToString [Byte.x4d; Byte.x61; Byte.x6e] = "TWFu".
Proof. reflexivity. Qed.

Example base64_Ma :
  base64.EncodeToString [Byte.x4d; Byte.x61] = "TWE".
Proof. reflexivity. Qed.

Example base64_M :
  base64.EncodeToString [Byte.x4d] = "TQ".
Proof. reflexivity. Qed.

Example base64_decode_TWFu :
  base64.DecodeString "TWFu" = Some [Byte.x4d; Byte.x61; Byte.x6e].
Proof. reflexivity. Qed.

Example base64_decode_newline :
  base64.DecodeString (String "010"%char "TWE") = Some [Byte.x4d; Byte.x61].
Proof. reflexivity. Qed.

Example base64_decode_corrupt :
  base64.DecodeString "TWF=" = None /\ base64.DecodeString "TWFuT" = None.
Proof. split; reflexivity. Qed.

(** ** The status translator *)

Section status_translator.

Context {M : Type} `{!proto.Message M}.


(** C7. A nil value and a value of any type that is not an error both
    get status 500 and the body ["Invalid error type: "] followed by the
    name of the value's type, and a new error with that text is
    returned; an error is returned as it came. *)
Theorem C7_convertResultError_invalid_error_type (res : Response.t) :
  (∀ v : any,
     match v with
     | AnyError err => (convertResultError res v).2 = Some err
     | _ =>
         convertResultError res v =
           (Response.mk http.StatusInternalServerError
              (Response.Headers res) (Response.MultiValueHeaders res)
              ("Invalid error type: " +:+ typeName v) (Response.IsBase64Encoded res),
            Some (errors.New ("Invalid error type: " +:+ typeName v)))
     end)
  ∧ (∀ T : string, typeName (AnyOther T) = T)
  ∧ typeName AnyNil = "<nil>".
Proof.
  split; [|split; [reflexivity | reflexivity]].
  intros [|err|T]; [reflexivity | | reflexivity].
  unfold convertResultError. destruct (status.FromError err) as [st ok].
  reflexivity.
Qed.

End status_translator.

(** ** The envelope codec *)

Section envelope_codec.

Context {M : Type} `{!proto.Message M}.

Lemma MarshalProtobuf_nonempty (res : Response.t) (m : M) (body : list Byte.byte) :
  proto.Marshal m = (body, None) → body ≠ [] →
  MarshalProtobuf res m =
    (Response.setIsBase64Encoded true
       (Response.setBody (base64.EncodeToString body) res), None).
Proof.
  intros Hm Hne. unfold MarshalProtobuf. rewrite Hm.
  destruct body; [done | reflexivity].
Qed.

Lemma MarshalProtobuf_empty (res : Response.t) (m : M) :
  proto.Marshal m = ([], None) →
  MarshalProtobuf res m =
    (Response.setIsBase64Encoded false (Response.setBody "" res), None).
Proof. intros Hm. unfold MarshalProtobuf. rewrite Hm. reflexivity. Qed.

(** C2. Over a wire format whose parser inverts its serializer: a
    message with a non-empty serialization is encoded into a non-empty
    base64 body with the flag set, and a request carrying that body and
    flag decodes to the same message, whatever the target held; a
    message with an empty serialization is encoded into the empty body
    with the flag cleared. *)
Theorem C2_MarshalProtobuf_UnmarshalProtobuf_round_trip
    (wire_round_trip :
       ∀ (m : M) (body : list Byte.byte) (target : M),
         proto.Marshal m = (body, None) → proto.Unmarshal body target = (m, None))
    (res : Response.t) (m : M) (body : list Byte.byte) :
  proto.Marshal m = (body, None) →
  (body ≠ [] →
     ∃ res',
       MarshalProtobuf res m = (res', None)
       ∧ Response.Body res' = base64.EncodeToString body
       ∧ Response.Body res' ≠ ""
       ∧ Response.IsBase64Encoded res' = true
       ∧ ∀ path headers multi key target,
           UnmarshalProtobuf
             (mkRequest
                (ProxyRequest.mk path headers multi
                   (Response.Body res') (Response.IsBase64Encoded res')) key)
             target = (m, None))
  ∧ (body = [] →
     MarshalProtobuf res m =
       (Response.mk (Response.StatusCode res) (Response.Headers res)
          (Response.MultiValueHeaders res) "" false, None)).
Proof.
  intros Hm. split.
  - intros Hne.
    exists (Response.setIsBase64Encoded true
              (Response.setBody (base64.EncodeToString body) res)).
    split; [by apply MarshalProtobuf_nonempty|].
    split; [reflexivity|]. split; [by apply base64_facts.EncodeToString_nonempty|].
    split; [reflexivity|]. intros path headers multi key target.
    unfold UnmarshalProtobuf.
    cbn [APIGatewayProxyRequest ProxyRequest.IsBase64Encoded ProxyRequest.Body
         Response.IsBase64Encoded Response.Body
         Response.setIsBase64Encoded Response.setBody].
    rewrite base64_facts.DecodeString_EncodeToString. by apply wire_round_trip.
  - intros ->. by rewrite MarshalProtobuf_empty.
Qed.

End envelope_codec.

(** ** The dispatcher *)

Section dispatcher.

Context {W : Type} {M : Type} `{!proto.Message M}.

Implicit Types (c : @Controller W) (w : W) (ctx : context.Context).

Lemma HandleLambda_unregistered c ctx (proxyReq : ProxyRequest.t) w (key : string) :
  ctlMatcher c ctx proxyReq = (key, None) → handlers c !! key = None →
  HandleLambda c ctx proxyReq w =
    ((Response.mk 404 ∅ ∅ "" false, None), (w, ["No handler registered for key"])).
Proof.
  intros Hkey Hnone. unfold HandleLambda. unfold Handler in *.
  rewrite Hkey. cbv beta iota. rewrite Hnone. reflexivity.
Qed.

(** C3. When the matcher resolves a key no handler is registered for,
    [HandleLambda] returns the response it started from (404, empty
    body) and leaves the world as it found it: no handler ran. A matcher
    error that carries a not-found status gives that same response, and
    every other matcher error gives it with status 500. *)
Theorem C3_HandleLambda_unmatched
    c ctx (proxyReq : ProxyRequest.t) w (key : string) :
  (ctlMatcher c ctx proxyReq = (key, None) → handlers c !! key = None →
     HandleLambda c ctx proxyReq w =
       ((Response.mk 404 ∅ ∅ "" false, None), (w, ["No handler registered for key"])))
  ∧ (∀ err st,
       ctlMatcher c ctx proxyReq = (key, Some err) →
       status.FromError err = (st, true) → Code st = codes.NotFound →
       HandleLambda c ctx proxyReq w =
         ((Response.mk 404 ∅ ∅ "" false, None), (w, ["Matcher returned not found"])))
  ∧ (∀ err,
       ctlMatcher c ctx proxyReq = (key, Some err) →
       ¬ (∃ st, status.FromError err = (st, true) ∧ Code st = codes.NotFound) →
       HandleLambda c ctx proxyReq w =
         ((Response.mk 500 ∅ ∅ "" false, None), (w, ["Failed to match request"]))).
Proof.
  repeat split; [by apply HandleLambda_unregistered | |]; unfold HandleLambda.
  - intros err st Hkey Hst Hcode. rewrite Hkey. cbv beta iota.
    rewrite Hst, Hcode. reflexivity.
  - intros err Hkey Hnot. rewrite Hkey. cbv beta iota.
    destruct (status.FromError err) as [st ok].
    destruct ok; [|reflexivity].
    destruct (N.eqb_spec (Code st) codes.NotFound) as [Heq|Hne]; [|reflexivity].
    exfalso. apply Hnot. by exists st.
Qed.

(** C4. The error [HandleLambda] returns is nil for every event. When a
    handler is invoked, the response returned is the one the handler
    left, with one change: if the handler returned an error and left a
    status code below 400, the status code is 500. *)
Theorem C4_HandleLambda_returns_no_error
    c ctx (proxyReq : ProxyRequest.t) w :
  (HandleLambda c ctx proxyReq w).1.2 = None
  ∧ ∀ key handler res' err w',
      ctlMatcher c ctx proxyReq = (key, None) →
      handlers c !! key = Some handler →
      handler ctx (mkRequest proxyReq key)
        (Response.setStatusCode http.StatusOK initialResponse) w = (res', err, w') →
      (err = None → HandleLambda c ctx proxyReq w = ((res', None), (w', [])))
      ∧ (err ≠ None → Response.StatusCode res' < 400 →
           HandleLambda c ctx proxyReq w =
             ((Response.setStatusCode 500 res', None), (w', ["Failed to handle request"])))
      ∧ (err ≠ None → 400 ≤ Response.StatusCode res' →
           HandleLambda c ctx proxyReq w =
             ((res', None), (w', ["Failed to handle request"]))).
Proof.
  split.
  - unfold HandleLambda.
    destruct (ctlMatcher c ctx proxyReq) as [key [err|]].
    + destruct (status.FromError err) as [st ok].
      destruct (ok && (Code st =? codes.NotFound)%N); reflexivity.
    + destruct (handlers c !! key) as [handler|]; [|reflexivity].
      destruct (handler _ _ _ _) as [[res' [err|]] w']; reflexivity.
  - intros key handler res' err w' Hkey Hh Hrun.
    unfold HandleLambda. unfold Handler in *.
    rewrite Hkey. cbv beta iota. rewrite Hh, Hrun.
    repeat split.
    + intros ->. reflexivity.
    + intros Herr Hlt. destruct err as [err|]; [|done].
      destruct (Z.ltb_spec (Response.StatusCode res') 400); [reflexivity | lia].
    + intros Herr Hge. destruct err as [err|]; [|done].
      destruct (Z.ltb_spec (Response.StatusCode res') 400); [lia | reflexivity].
Qed.

(** C10. A unary method that returns a nil message and a nil error
    makes its handler set the body to the empty string and return nil;
    dispatched through [HandleLambda], the response has status 200 and
    an empty body. *)
Theorem C10_unary_nil_output
    c ctx (proxyReq : ProxyRequest.t) w (key : string)
    (methodCaller : Method) (methodInput callInput : M)
    (ctx' : context.Context) w' :
  ctlMatcher c ctx proxyReq = (key, None) →
  handlers c !! key = Some (unaryHandler methodCaller methodInput) →
  UnmarshalProtobuf (mkRequest proxyReq key) methodInput = (callInput, None) →
  Call methodCaller (callContext ctx (mkRequest proxyReq key)) callInput w =
    (TwoValues None AnyNil, ctx', w') →
  (∀ res,
     ∃ res',
       unaryHandler methodCaller methodInput ctx (mkRequest proxyReq key) res w =
         (res', None, w')
       ∧ Response.Body res' = ""
       ∧ Response.StatusCode res' = Response.StatusCode res)
  ∧ ∃ response,
      HandleLambda c ctx proxyReq w = ((response, None), (w', []))
      ∧ Response.StatusCode response = 200
      ∧ Response.Body response = "".
Proof.
  intros Hkey Hh Hin Hcall.
  assert (Hunary : ∀ res,
    ∃ res',
      unaryHandler methodCaller methodInput ctx (mkRequest proxyReq key) res w =
        (res', None, w')
      ∧ Response.Body res' = ""
      ∧ Response.StatusCode res' = Response.StatusCode res).
  { intros res. unfold unaryHandler, proto.Clone.
    rewrite Hin. unfold callContext in Hcall. rewrite Hcall.
    destruct (metadata.FromOutgoingContext ctx) as [outMeta|];
      eexists; (split; [reflexivity|]); split; reflexivity. }
  split; [exact Hunary|].
  destruct (Hunary (Response.setStatusCode http.StatusOK initialResponse))
    as (res' & Hrun & Hbody & Hcode).
  exists res'. unfold HandleLambda. unfold Handler in *.
  rewrite Hkey. cbv beta iota. rewrite Hh, Hrun.
  split; [reflexivity|]. split; [|exact Hbody]. rewrite Hcode. reflexivity.
Qed.

End dispatcher.

(** ** The metadata bridge and the synthetic stream *)

Module metadata_facts.





End metadata_facts.

Section synthetic_stream.

Context {W : Type} {M : Type} `{!proto.Message M}.

Implicit Types (g : grpcServerStream.t) (w : W) (p : grpc.Calls W M).






End synthetic_stream.

(** ** The method binder *)

Section method_binder.

Context {W : Type} {M : Type} `{!proto.Message M}.

Implicit Types (c : @Controller W) (svc : @Service W M).

Lemma registerStreams_skips_client_streams (name : string)
    (streams : list (grpc.StreamDesc StreamHandler)) svc c :
  registerStreams name streams svc c
  = registerStreams name (List.filter (λ s, negb (grpc.ClientStreams s)) streams) svc c.
Proof.
  revert c. induction streams as [|s streams IH]; intros c; [reflexivity|].
  cbn [registerStreams List.filter]. cbv beta.
  destruct (grpc.ClientStreams s) eqn:Hclient; cbn [negb].
  - rewrite andb_false_r. apply IH.
  - cbn [registerStreams]. rewrite Hclient.
    destruct (grpc.ServerStreams s); cbn [andb negb]; apply IH.
Qed.

Lemma registerStreams_Matcher (name : string)
    (streams : list (grpc.StreamDesc StreamHandler)) svc c :
  ctlMatcher (registerStreams name streams svc c) = ctlMatcher c.
Proof.
  revert c. induction streams as [|s streams IH]; intros c; [reflexivity|].
  cbn [registerStreams]. destruct (_ && _); rewrite IH; reflexivity.
Qed.

Lemma registerStreams_unbound (name key : string)
    (streams : list (grpc.StreamDesc StreamHandler)) svc c :
  handlers c !! key = None →
  (∀ s, s ∈ streams → grpc.ClientStreams s = false →
        routingKey name (grpc.StreamName s) ≠ key) →
  handlers (registerStreams name streams svc c) !! key = None.
Proof.
  revert c. induction streams as [|s streams IH]; intros c Hc Hother; [exact Hc|].
  cbn [registerStreams].
  destruct (grpc.ServerStreams s && negb (grpc.ClientStreams s)) eqn:Hbind.
  - apply IH.
    + unfold RegisterHandler, Handler in *. cbn [handlers].
      rewrite lookup_insert_ne; [exact Hc|].
      apply Hother; [left|].
      apply andb_prop in Hbind as [_ Hneg]. by destruct (grpc.ClientStreams s).
    + intros s' Hs'. apply Hother. by right.
  - apply IH; [exact Hc|]. intros s' Hs'. apply Hother. by right.
Qed.

Lemma registerMethods_unbound (name key : string)
    (methods : list grpc.MethodDesc) svc c c' :
  registerMethods name methods svc c = Registered c' →
  handlers c !! key = None →
  (∀ m, m ∈ methods → routingKey name (grpc.MethodName m) ≠ key) →
  handlers c' !! key = None ∧ ctlMatcher c' = ctlMatcher c.
Proof.
  revert c. induction methods as [|m methods IH]; intros c Hreg Hc Hother.
  - injection Hreg as <-. by split.
  - cbn [registerMethods] in Hreg.
    destruct (MethodByName svc (grpc.MethodName m)) as [caller|]; [|discriminate].
    destruct (NewInput caller) as [input|]; [|discriminate].
    apply IH in Hreg as [Hnone Hm].
    + split; [exact Hnone|]. rewrite Hm. reflexivity.
    + unfold RegisterHandler, Handler in *. cbn [handlers].
      rewrite lookup_insert_ne; [exact Hc|]. apply Hother. left.
    + intros m' Hm'. apply Hother. by right.
Qed.

(** C8, as the code has it. A client-streaming or bidirectional stream
    descriptor is skipped without an error: registering a descriptor
    gives what registering it without those stream descriptors gives.
    Nothing is bound for a skipped descriptor, and its absence shows at
    call time: if nothing else is bound to its routing key, a request
    for that key gets the 404 response of an unregistered key. *)
Theorem C8_client_streams_skipped_silently
    (desc : grpc.ServiceDesc StreamHandler) svc c :
  RegisterGRPCService desc svc c = RegisterGRPCService (withoutClientStreams desc) svc c
  ∧ ∀ c' (s : grpc.StreamDesc StreamHandler) ctx (proxyReq : ProxyRequest.t) (w : W),
      let key := routingKey (grpc.ServiceName desc) (grpc.StreamName s) in
      RegisterGRPCService desc svc c = Registered c' →
      s ∈ grpc.Streams desc → grpc.ClientStreams s = true →
      handlers c !! key = None →
      (∀ m, m ∈ grpc.Methods desc →
            routingKey (grpc.ServiceName desc) (grpc.MethodName m) ≠ key) →
      (∀ s', s' ∈ grpc.Streams desc → grpc.ClientStreams s' = false →
             routingKey (grpc.ServiceName desc) (grpc.StreamName s') ≠ key) →
      ctlMatcher c ctx proxyReq = (key, None) →
      handlers c' !! key = None
      ∧ HandleLambda c' ctx proxyReq w =
          ((Response.mk 404 ∅ ∅ "" false, None), (w, ["No handler registered for key"])).
Proof.
  split.
  - unfold RegisterGRPCService, withoutClientStreams.
    cbn [grpc.ServiceName grpc.Methods grpc.Streams].
    destruct (registerMethods _ _ svc c) as [c1|msg]; [|reflexivity].
    by rewrite registerStreams_skips_client_streams.
  - intros c' s ctx proxyReq w key Hreg Hs Hclient Hc Hmethods Hstreams Hkey.
    unfold RegisterGRPCService in Hreg.
    destruct (registerMethods _ _ svc c) as [c1|msg] eqn:Hm; [|discriminate].
    injection Hreg as <-.
    destruct (registerMethods_unbound _ key _ _ _ _ Hm Hc Hmethods) as [Hc1 Hmatch].
    assert (Hnone : handlers (registerStreams (grpc.ServiceName desc)
                                (grpc.Streams desc) svc c1) !! key = None)
      by (by apply registerStreams_unbound).
    split; [exact Hnone|].
    apply (HandleLambda_unregistered _ ctx proxyReq w key); [|exact Hnone].
    by rewrite registerStreams_Matcher, Hmatch.
Qed.

End method_binder.

(** ** The scenario, evaluated *)

Example scenario_echo :
  HandleLambda scenario.controller context.Background
    (scenario.request "/svc/Echo" (base64.EncodeToString scenario.abc) true) 0%nat
  = ((Response.mk 200 ∅ ∅ (base64.EncodeToString scenario.abc) true, None), (1%nat, [])).
Proof. vm_compute. reflexivity. Qed.

Example scenario_missing :
  HandleLambda scenario.controller context.Background
    (scenario.request "/svc/Missing" "" false) 0%nat
  = ((Response.mk 404 ∅ ∅ "" false, None), (0%nat, ["No handler registered for key"])).
Proof. vm_compute. reflexivity. Qed.

Example scenario_record_missing (res : Response.t) :
  (convertResultError res
     (AnyError (mkError "" (Some (mkStatus codes.NotFound "record missing"))))).1
  = Response.mk 404 (Response.Headers res) (Response.MultiValueHeaders res)
      "record missing" false.
Proof. reflexivity. Qed.

Section unary_metadata.

Context {W : Type} {M : Type} `{!proto.Message M}.

Lemma MarshalProtobuf_headers (res : Response.t) (m : M) :
  Response.MultiValueHeaders (MarshalProtobuf res m).1 = Response.MultiValueHeaders res.
Proof.
  unfold MarshalProtobuf. destruct (proto.Marshal m) as [body [err|]]; [reflexivity|].
  destruct (0 <? length body)%nat; reflexivity.
Qed.

Lemma convertResultError_headers (res : Response.t) (v : any) :
  Response.MultiValueHeaders (convertResultError res v).1 = Response.MultiValueHeaders res.
Proof.
  destruct v as [|err|T]; [reflexivity | | reflexivity].
  unfold convertResultError. destruct (status.FromError err) as [st [|]]; [|reflexivity].
  repeat (destruct (Code st =? _)%N; [reflexivity|]). reflexivity.
Qed.

(** The multi-valued headers a unary handler leaves are those of the
    context the handler was called with, or the ones the response had:
    the method, and the context it ends with, have no part in them. *)
Lemma unaryHandler_headers (methodCaller : @Method W M) (methodInput : M)
    (ctx : context.Context) (req : Request) (res : Response.t) (w : W) :
  Response.MultiValueHeaders (unaryHandler methodCaller methodInput ctx req res w).1.1
  = match (UnmarshalProtobuf req methodInput).2, metadata.FromOutgoingContext ctx with
    | None, Some outMeta => outMeta
    | _, _ => Response.MultiValueHeaders res
    end.
Proof.
  unfold unaryHandler, proto.Clone.
  destruct (UnmarshalProtobuf req methodInput) as [callInput [err|]]; [reflexivity|].
  destruct (Call methodCaller _ callInput w) as [[result ctx'] w'].
  cbn [snd].
  set (res1 := match metadata.FromOutgoingContext ctx with
               | Some outMeta => Response.setMultiValueHeaders outMeta res
               | None => res
               end).
  assert (Hres1 : Response.MultiValueHeaders res1
                  = match metadata.FromOutgoingContext ctx with
                    | Some outMeta => outMeta
                    | None => Response.MultiValueHeaders res
                    end)
    by (subst res1; destruct (metadata.FromOutgoingContext ctx); reflexivity).
  rewrite <- Hres1. clearbody res1.
  destruct result as [out v|repr]; [|reflexivity].
  destruct v as [|err|T].
  - destruct out as [out|]; [|reflexivity].
    pose proof (MarshalProtobuf_headers res1 out) as Hm.
    destruct (MarshalProtobuf res1 out) as [r [err|]]; exact Hm.
  - pose proof (convertResultError_headers res1 (AnyError err)) as Hc.
    destruct (convertResultError res1 (AnyError err)) as [r e]. exact Hc.
  - pose proof (convertResultError_headers res1 (AnyOther T)) as Hc.
    destruct (convertResultError res1 (AnyOther T)) as [r e]. exact Hc.
Qed.

End unary_metadata.

(** C6, on the code. [Echo] attaches [x-request-id] to the outgoing
    metadata of the context it was called with, and runs; the response of
    the dispatch has no multi-valued header: the unary handler reads the
    outgoing metadata of its own context, not of the call's. *)
Theorem C6_unary_outgoing_metadata_not_written_back :
  let proxyReq := scenario.request "/svc/Echo" (base64.EncodeToString scenario.abc) true in
  let callCtx := callContext context.Background (mkRequest proxyReq "/svc/Echo") in
  metadata.FromOutgoingContext (Call scenario.Echo callCtx scenario.abc 0%nat).1.2
    = Some scenario.requestId
  ∧ (HandleLambda scenario.controller context.Background proxyReq 0%nat).2.1 = 1%nat
  ∧ Response.MultiValueHeaders
      (HandleLambda scenario.controller context.Background proxyReq 0%nat).1.1 = ∅.
Proof. vm_compute. repeat split. Qed.

(** C9, on the code. [Flush] sends a message and then sends nil; the
    response of the dispatch has an empty body and the base64 flag set,
    against the invariant. *)
Theorem C9_flag_stays_set_on_cleared_body :
  let proxyReq := scenario.request "/svc/Flush" "" false in
  let response :=
    (HandleLambda scenario.controller context.Background proxyReq 0%nat).1.1 in
  response = Response.mk 102 ∅ ∅ "" true ∧ ¬ base64FlagInvariant response.
Proof.
  cbv zeta.
  assert (Hres : (HandleLambda scenario.controller context.Background
                    (scenario.request "/svc/Flush" "" false) 0%nat).1.1
                 = Response.mk 102 ∅ ∅ "" true) by (vm_compute; reflexivity).
  rewrite Hres. split; [reflexivity|].
  intros [Hflag _]. destruct (Hflag eq_refl) as (payload & Hne & Hbody).
  by apply base64_facts.EncodeToString_nonempty in Hne.
Qed.

(** C8, against the claim. Registering a descriptor whose only stream is
    bidirectional ends normally, with the controller as it was: no error
    at registration. *)
Lemma C8_bidirectional_stream_registers_without_error :
  scenario.chatDesc ∈ grpc.Streams scenario.chatOnly
  ∧ grpc.ClientStreams scenario.chatDesc = true
  ∧ RegisterGRPCService scenario.chatOnly scenario.svc scenario.empty
    = Registered scenario.empty
  ∧ ¬ ∃ msg, RegisterGRPCService scenario.chatOnly scenario.svc scenario.empty = Panic msg.
Proof.
  split; [by left|]. split; [reflexivity|]. split; [reflexivity|].
  intros [msg Hpanic]. discriminate Hpanic.
Qed.

(** ** The theorems at the scenario *)

Lemma C2_round_trip_witness :
  ∃ res',
    MarshalProtobuf initialResponse scenario.abc = (res', None)
    ∧ Response.Body res' = base64.EncodeToString scenario.abc
    ∧ Response.Body res' ≠ ""
    ∧ Response.IsBase64Encoded res' = true
    ∧ ∀ path headers multi key target,
        UnmarshalProtobuf
          (mkRequest
             (ProxyRequest.mk path headers multi
                (Response.Body res') (Response.IsBase64Encoded res')) key)
          target = (scenario.abc, None).
Proof.
  refine (proj1 (C2_MarshalProtobuf_UnmarshalProtobuf_round_trip
                   (M := list Byte.byte) _ initialResponse scenario.abc scenario.abc
                   eq_refl) _).
  - intros m body target Hm. cbn in Hm. injection Hm as <-. reflexivity.
  - discriminate.
Defined.

Lemma C3_unmatched_witness :
  HandleLambda scenario.controller context.Background
    (scenario.request "/svc/Missing" "" false) 0%nat
  = ((Response.mk 404 ∅ ∅ "" false, None), (0%nat, ["No handler registered for key"]))
  ∧ HandleLambda scenario.controller context.Background
      (scenario.request "/outside" "" false) 0%nat
    = ((Response.mk 404 ∅ ∅ "" false, None), (0%nat, ["Matcher returned not found"]))
  ∧ HandleLambda scenario.controller context.Background
      (scenario.request "/broken" "" false) 0%nat
    = ((Response.mk 500 ∅ ∅ "" false, None), (0%nat, ["Failed to match request"])).
Proof.
  split; [|split].
  - apply (proj1 (C3_HandleLambda_unmatched scenario.controller context.Background
                    (scenario.request "/svc/Missing" "" false) 0%nat "/svc/Missing"));
      vm_compute; reflexivity.
  - apply (proj1 (proj2 (C3_HandleLambda_unmatched scenario.controller context.Background
                           (scenario.request "/outside" "" false) 0%nat ""))
             scenario.notFound (mkStatus codes.NotFound "Not found"));
      vm_compute; reflexivity.
  - apply (proj2 (proj2 (C3_HandleLambda_unmatched scenario.controller context.Background
                           (scenario.request "/broken" "" false) 0%nat ""))
             (errors.New "matcher failed")).
    + vm_compute; reflexivity.
    + intros (st & Hst & _). discriminate Hst.
Defined.

Lemma C4_forced_500_witness :
  (HandleLambda scenario.withFailing context.Background
     (scenario.request "/fail" "" false) 0%nat).1.2 = None
  ∧ HandleLambda scenario.withFailing context.Background
      (scenario.request "/fail" "" false) 0%nat
    = ((Response.mk 500 ∅ ∅ "" false, None), (1%nat, ["Failed to handle request"])).
Proof.
  destruct (C4_HandleLambda_returns_no_error scenario.withFailing context.Background
              (scenario.request "/fail" "" false) 0%nat) as [Hnil Hrun].
  split; [exact Hnil|].
  destruct (Hrun "/fail" scenario.failing
              (Response.setStatusCode http.StatusOK initialResponse)
              (Some (errors.New "boom")) 1%nat eq_refl eq_refl eq_refl)
    as (_ & Hforced & _).
  apply Hforced; [discriminate | reflexivity].
Defined.


Lemma C8_skipped_stream_witness :
  handlers scenario.empty !! "/svc/Chat" = None
  ∧ HandleLambda scenario.empty context.Background
      (scenario.request "/svc/Chat" "" false) 0%nat
    = ((Response.mk 404 ∅ ∅ "" false, None), (0%nat, ["No handler registered for key"])).
Proof.
  apply (proj2 (C8_client_streams_skipped_silently scenario.chatOnly scenario.svc
                  scenario.empty)
           scenario.empty scenario.chatDesc context.Background
           (scenario.request "/svc/Chat" "" false) 0%nat).
  - reflexivity.
  - by left.
  - reflexivity.
  - reflexivity.
  - intros m Hm. by apply elem_of_nil in Hm.
  - intros s' Hs' Hfalse. apply list_elem_of_singleton in Hs' as ->. discriminate Hfalse.
  - reflexivity.
Defined.

Lemma C10_ping_witness :
  ∃ response,
    HandleLambda scenario.controller context.Background
      (scenario.request "/svc/Ping" "" false) 0%nat = ((response, None), (1%nat, []))
    ∧ Response.StatusCode response = 200
    ∧ Response.Body response = "".
Proof.
  apply (proj2 (C10_unary_nil_output scenario.controller context.Background
                  (scenario.request "/svc/Ping" "" false) 0%nat "/svc/Ping"
                  scenario.Ping [] []
                  (callContext context.Background
                     (mkRequest (scenario.request "/svc/Ping" "" false) "/svc/Ping"))
                  1%nat eq_refl eq_refl eq_refl eq_refl)).
Defined.

(** * More of the package *)

Example catalog_echo :
  HandleLambda catalog.controller context.Background
    (catalog.request "/api/catalog/Echo/" (base64.EncodeToString catalog.hello) true) 0%nat
  = ((Response.mk 200 ∅ ∅ (base64.EncodeToString catalog.hello) true, None), (1%nat, [])).
Proof. vm_compute. reflexivity. Qed.

Example catalog_outside :
  (MakeUrlPathMatcher "/api/" context.Background (catalog.request "/other/x" "" false)).2
  = Some (status.Errorf codes.NotFound
            "Not found (couldn't match prefix /api for url path /other/x)").
Proof. vm_compute. reflexivity. Qed.

(** ** [strings]: trimming and prefixes *)

Module strings_facts.
Import strings_.

Lemma append_cons (x : ascii) (a b : string) : String x a +:+ b = String x (a +:+ b).
Proof. reflexivity. Qed.

Lemma append_nil (b : string) : "" +:+ b = b.
Proof. reflexivity. Qed.

Lemma TrimRight_empty_or_kept (s cutset : string) (x : ascii) :
  TrimRight (String x s) cutset
  = match TrimRight s cutset with
    | EmptyString => if contains x cutset then EmptyString else String x EmptyString
    | r' => String x r'
    end.
Proof. reflexivity. Qed.

(** Trimming removes a trailing character of the cutset. *)
Lemma TrimRight_snoc (s cutset : string) (c : ascii) :
  contains c cutset = true →
  TrimRight (s +:+ String c EmptyString) cutset = TrimRight s cutset.
Proof.
  intros Hc. induction s as [|x s IH].
  - rewrite append_nil, TrimRight_empty_or_kept. cbn [TrimRight]. by rewrite Hc.
  - rewrite append_cons, !TrimRight_empty_or_kept, IH. reflexivity.
Qed.

(** What trimming leaves does not end with a character of the cutset. *)
Lemma TrimRight_last (s cutset r : string) (c : ascii) :
  TrimRight s cutset = r +:+ String c EmptyString → contains c cutset = false.
Proof.
  revert r. induction s as [|x s IH]; intros r Heq.
  - destruct r; discriminate Heq.
  - rewrite TrimRight_empty_or_kept in Heq.
    destruct (TrimRight s cutset) as [|y t] eqn:Ht.
    + destruct (contains x cutset) eqn:Hx.
      * destruct r; discriminate Heq.
      * destruct r as [|z r]; rewrite ?append_nil, ?append_cons in Heq.
        -- by injection Heq as <-.
        -- injection Heq as _ Heq. destruct r; discriminate Heq.
    + destruct r as [|z r]; rewrite ?append_nil, ?append_cons in Heq; [discriminate Heq|].
      injection Heq as _ Heq. by apply (IH r).
Qed.

Lemma TrimRight_idempotent (s cutset : string) :
  TrimRight (TrimRight s cutset) cutset = TrimRight s cutset.
Proof.
  induction s as [|x s IH]; [reflexivity|].
  rewrite TrimRight_empty_or_kept.
  destruct (TrimRight s cutset) as [|y t] eqn:Ht.
  - destruct (contains x cutset) eqn:Hx; [reflexivity|]. cbn. by rewrite Hx.
  - rewrite TrimRight_empty_or_kept, IH. reflexivity.
Qed.

Lemma HasPrefix_app (p r : string) : HasPrefix (p +:+ r) p = true.
Proof.
  induction p as [|x p IH]; [reflexivity|].
  rewrite append_cons. cbn [HasPrefix]. by rewrite Ascii.eqb_refl, IH.
Qed.

Lemma from_app (p r : string) : from (String.length p) (p +:+ r) = r.
Proof.
  induction p as [|x p IH]; [by destruct r|].
  rewrite append_cons. exact IH.
Qed.

(** A string that has a prefix is the prefix followed by what
    [TrimPrefix] leaves. *)
Lemma HasPrefix_TrimPrefix (s p : string) :
  HasPrefix s p = true → s = p +:+ TrimPrefix s p.
Proof.
  intros Hp. unfold TrimPrefix. rewrite Hp.
  revert s Hp. induction p as [|x p IH]; intros s Hp; [reflexivity|].
  destruct s as [|y s]; [discriminate Hp|].
  cbn in Hp. apply andb_prop in Hp as [Hxy Hp].
  apply Ascii.eqb_eq in Hxy as ->. rewrite append_cons. cbn [String.length from].
  f_equal. by apply IH.
Qed.

Lemma HasPrefix_iff (s p : string) :
  HasPrefix s p = true ↔ ∃ r, s = p +:+ r.
Proof.
  split.
  - intros Hp. eexists. by apply HasPrefix_TrimPrefix.
  - intros [r ->]. apply HasPrefix_app.
Qed.

Lemma TrimPrefix_app (p r : string) : TrimPrefix (p +:+ r) p = r.
Proof. unfold TrimPrefix. by rewrite HasPrefix_app, from_app. Qed.

Lemma append_assoc (a b c : string) : (a +:+ b) +:+ c = a +:+ (b +:+ c).
Proof. induction a as [|x a IH]; [reflexivity|]. by rewrite !append_cons, IH. Qed.

Lemma length_zero (s : string) : (String.length s =? 0)%nat = true ↔ s = "".
Proof. destruct s; cbn; split; done. Qed.

End strings_facts.

(** ** The URL path matcher *)

Section url_path_matcher.

Context {W : Type}.

Implicit Types (basePath path key : string) (ctx : context.Context) (req : ProxyRequest.t).

(** X1. When the matcher resolves a key, the request path without its
    trailing slashes is the base path without its trailing slashes
    followed by the key; the key never ends with a slash. *)
Theorem X1_MakeUrlPathMatcher_key basePath ctx req key :
  MakeUrlPathMatcher basePath ctx req = (key, None) →
  strings_.TrimRight (ProxyRequest.Path req) "/"
  = strings_.TrimRight basePath "/" +:+ key
  ∧ ∀ r, key ≠ r +:+ "/".
Proof.
  unfold MakeUrlPathMatcher. intros Hm.
  assert (Hpath : strings_.TrimRight (ProxyRequest.Path req) "/"
                  = strings_.TrimRight basePath "/" +:+ key).
  { destruct (String.length _ =? 0)%nat eqn:Hlen.
    - apply strings_facts.length_zero in Hlen. rewrite Hlen.
      by injection Hm as <-.
    - destruct (strings_.HasPrefix _ _) eqn:Hp; cbn [negb] in Hm; [|discriminate Hm].
      injection Hm as <-. by apply strings_facts.HasPrefix_TrimPrefix. }
  split; [exact Hpath|].
  intros r ->. rewrite <- strings_facts.append_assoc in Hpath.
  apply strings_facts.TrimRight_last in Hpath. discriminate Hpath.
Qed.

(** X2. The matcher resolves a key exactly when the trimmed request path
    starts with the trimmed base path; otherwise it returns the empty key
    and an error that carries the status code [NotFound]. *)
Theorem X2_MakeUrlPathMatcher_resolves_iff_prefix basePath ctx req :
  ((MakeUrlPathMatcher basePath ctx req).2 = None ↔
   ∃ key, strings_.TrimRight (ProxyRequest.Path req) "/"
          = strings_.TrimRight basePath "/" +:+ key)
  ∧ ∀ err, (MakeUrlPathMatcher basePath ctx req).2 = Some err →
           (MakeUrlPathMatcher basePath ctx req).1 = ""
           ∧ ∃ msg, status.FromError err = (mkStatus codes.NotFound msg, true).
Proof.
  unfold MakeUrlPathMatcher.
  destruct (String.length _ =? 0)%nat eqn:Hlen.
  - apply strings_facts.length_zero in Hlen. rewrite Hlen. cbn [snd fst].
    split; [|discriminate]. split; [|done]. intros _. by eexists.
  - destruct (strings_.HasPrefix _ _) eqn:Hp; cbn [negb snd fst].
    + split; [|discriminate]. split; [|done]. intros _.
      by apply strings_facts.HasPrefix_iff.
    + split.
      * split; [discriminate|]. intros Hex.
        apply strings_facts.HasPrefix_iff in Hex. congruence.
      * intros err [= <-]. split; [reflexivity|]. by eexists.
Qed.

(** X3. Trailing slashes do not matter, in the base path or in the
    request path. *)
Theorem X3_MakeUrlPathMatcher_trailing_slash basePath ctx path headers multi body flag :
  MakeUrlPathMatcher (basePath +:+ "/") ctx
    (ProxyRequest.mk (path +:+ "/") headers multi body flag)
  = MakeUrlPathMatcher basePath ctx (ProxyRequest.mk path headers multi body flag).
Proof.
  unfold MakeUrlPathMatcher. cbn [ProxyRequest.Path].
  by rewrite !strings_facts.TrimRight_snoc.
Qed.

(** X4. Under the URL path matcher, a request whose path is outside the
    base path gets the 404 response whatever handlers are registered, and
    none of them runs. *)
Theorem X4_HandleLambda_outside_base_path
    basePath (hs : gmap string (@Handler W)) ctx req (w : W) :
  strings_.HasPrefix (strings_.TrimRight (ProxyRequest.Path req) "/")
    (strings_.TrimRight basePath "/") = false →
  HandleLambda (mkController (MakeUrlPathMatcher basePath) hs) ctx req w
  = ((Response.mk 404 ∅ ∅ "" false, None), (w, ["Matcher returned not found"])).
Proof.
  intros Hp. unfold HandleLambda, MakeUrlPathMatcher. cbn [ctlMatcher].
  destruct (String.length _ =? 0)%nat eqn:Hlen.
  - apply strings_facts.length_zero in Hlen. rewrite Hlen in Hp. discriminate Hp.
  - rewrite Hp. reflexivity.
Qed.

End url_path_matcher.

Lemma X1_witness :
  strings_.TrimRight "/api/catalog/Echo/" "/" = strings_.TrimRight "/api/" "/" +:+ "/catalog/Echo"
  ∧ ∀ r, "/catalog/Echo" ≠ r +:+ "/".
Proof.
  apply (X1_MakeUrlPathMatcher_key "/api/" context.Background
           (catalog.request "/api/catalog/Echo/" "" false) "/catalog/Echo").
  vm_compute. reflexivity.
Defined.

Lemma X4_witness :
  HandleLambda catalog.controller context.Background
    (catalog.request "/other/catalog/Echo" "" false) 0%nat
  = ((Response.mk 404 ∅ ∅ "" false, None), (0%nat, ["Matcher returned not found"])).
Proof.
  apply (X4_HandleLambda_outside_base_path "/api/" (handlers catalog.controller)
           context.Background (catalog.request "/other/catalog/Echo" "" false) 0%nat).
  vm_compute. reflexivity.
Defined.

(** ** The handler registry *)

Section handler_registry.

Context {W : Type} {M : Type} `{!proto.Message M}.

Implicit Types (c : @Controller W) (svc : @Service W M) (w : W) (ctx : context.Context).

(** What [HandleLambda] does once the key has a handler. *)
Lemma HandleLambda_handler c ctx (proxyReq : ProxyRequest.t) w (key : string)
    (handler : @Handler W) :
  ctlMatcher c ctx proxyReq = (key, None) →
  handlers c !! key = Some handler →
  HandleLambda c ctx proxyReq w
  = match handler ctx (mkRequest proxyReq key)
            (Response.setStatusCode http.StatusOK initialResponse) w with
    | (res, Some _, w') =>
        ((if Response.StatusCode res <? 400
          then Response.setStatusCode http.StatusInternalServerError res
          else res, None), (w', ["Failed to handle request"]))
    | (res, None, w') => ((res, None), (w', []))
    end.
Proof.
  intros Hkey Hh. unfold HandleLambda. unfold Handler in *.
  rewrite Hkey. cbv beta iota. rewrite Hh. reflexivity.
Qed.

(** X5. A handler registered under a key replaces the one registered
    before under that key, and it is the one [HandleLambda] runs for a
    request the matcher resolves to the key; registering under another
    key changes nothing for that request. *)
Theorem X5_RegisterHandler_last_wins c ctx (proxyReq : ProxyRequest.t) w (key : string)
    (h1 h2 : @Handler W) :
  ctlMatcher c ctx proxyReq = (key, None) →
  RegisterHandler key h2 (RegisterHandler key h1 c) = RegisterHandler key h2 c
  ∧ HandleLambda (RegisterHandler key h2 (RegisterHandler key h1 c)) ctx proxyReq w
    = match h2 ctx (mkRequest proxyReq key)
              (Response.setStatusCode http.StatusOK initialResponse) w with
      | (res, Some _, w') =>
          ((if Response.StatusCode res <? 400
            then Response.setStatusCode http.StatusInternalServerError res
            else res, None), (w', ["Failed to handle request"]))
      | (res, None, w') => ((res, None), (w', []))
      end
  ∧ ∀ key', key' ≠ key →
      HandleLambda (RegisterHandler key' h1 c) ctx proxyReq w = HandleLambda c ctx proxyReq w.
Proof.
  intros Hkey.
  assert (Hsame : RegisterHandler key h2 (RegisterHandler key h1 c) = RegisterHandler key h2 c).
  { unfold RegisterHandler, Handler. cbn [ctlMatcher handlers]. by rewrite insert_insert_eq. }
  split; [exact Hsame|]. split.
  - apply HandleLambda_handler; [exact Hkey|].
    unfold RegisterHandler, Handler. cbn [handlers]. by rewrite lookup_insert_eq.
  - intros key' Hne. unfold HandleLambda, RegisterHandler, Handler in *.
    cbn [ctlMatcher handlers]. rewrite Hkey. cbv beta iota.
    by rewrite lookup_insert_ne.
Qed.

Lemma registerMethods_Registered_iff (name : string) (methods : list grpc.MethodDesc) svc c :
  (∃ c', registerMethods name methods svc c = Registered c') ↔ Forall (bindable svc) methods.
Proof.
  revert c. induction methods as [|m methods IH]; intros c.
  - split; [constructor | by eexists].
  - cbn [registerMethods]. rewrite Forall_cons. unfold bindable at 1.
    destruct (MethodByName svc (grpc.MethodName m)) as [caller|] eqn:Hcaller.
    + destruct (NewInput caller) as [input|] eqn:Hinput.
      * rewrite IH. split; [|by intros [_ Hrest]].
        intros Hrest. split; [by exists caller, input | exact Hrest].
      * split; [intros [c' Hc']; discriminate Hc'|].
        intros [(caller' & input' & [= <-] & Hin) _]. congruence.
    + split; [intros [c' Hc']; discriminate Hc'|].
      intros [(caller' & input' & Hsome & _) _]. discriminate Hsome.
Qed.

(** X6. Registering a service descriptor ends normally exactly when every
    method descriptor names a method the service has, with a message as
    its input; otherwise it panics. Stream descriptors have no part in it. *)
Theorem X6_RegisterGRPCService_panics_iff
    (desc : grpc.ServiceDesc StreamHandler) svc c :
  ((∃ c', RegisterGRPCService desc svc c = Registered c')
   ↔ Forall (bindable svc) (grpc.Methods desc))
  ∧ ((∃ msg, RegisterGRPCService desc svc c = Panic msg)
     ↔ Exists (λ m, ¬ bindable svc m) (grpc.Methods desc)).
Proof.
  assert (Hok : (∃ c', RegisterGRPCService desc svc c = Registered c')
                ↔ Forall (bindable svc) (grpc.Methods desc)).
  { rewrite <- (registerMethods_Registered_iff (grpc.ServiceName desc) _ svc c).
    unfold RegisterGRPCService.
    destruct (registerMethods _ _ svc c) as [c1|msg].
    - split; intros _; by eexists.
    - split; intros [c' Hc']; discriminate Hc'. }
  split; [exact Hok|].
  assert (Hdec : ∀ m, Decision (bindable svc m)).
  { intros m. unfold bindable.
    destruct (MethodByName svc (grpc.MethodName m)) as [caller|] eqn:Hcaller;
      [destruct (NewInput caller) as [input|] eqn:Hinput|].
    - left. by exists caller, input.
    - right. intros (caller' & input' & [= <-] & Hin). congruence.
    - right. intros (caller' & input' & Hsome & _). discriminate Hsome. }
  split.
  - intros [msg Hmsg].
    apply (not_Forall_Exists (bindable svc) (dec := Hdec)).
    intros Hall. apply Hok in Hall as [c' Hc']. congruence.
  - intros Hex. apply (Exists_not_Forall (bindable svc)) in Hex.
    destruct (RegisterGRPCService desc svc c) as [c1|msg]; [|by eexists].
    exfalso. apply Hex, Hok. by eexists.
Qed.

End handler_registry.

Set Warnings "-clear-no-such-hyp".

Section binder_bindings.

Context {W : Type} {M : Type} `{!proto.Message M}.

Implicit Types (c : @Controller W) (svc : @Service W M).

Lemma RegisterHandler_dom (key : string) (h : @Handler W) c :
  dom (handlers (RegisterHandler key h c)) = {[ key ]} ∪ dom (handlers c).
Proof. unfold RegisterHandler, Handler. cbn [handlers]. apply dom_insert_L. Qed.

Lemma RegisterHandler_other (key key' : string) (h : @Handler W) c :
  key' ≠ key → handlers (RegisterHandler key' h c) !! key = handlers c !! key.
Proof.
  intros Hne. unfold RegisterHandler, Handler. cbn [handlers]. by rewrite lookup_insert_ne.
Qed.

Lemma registerMethods_bindings (name : string) (methods : list grpc.MethodDesc) svc c c' :
  registerMethods name methods svc c = Registered c' →
  ctlMatcher c' = ctlMatcher c
  ∧ dom (handlers c')
    = dom (handlers c)
      ∪ list_to_set ((λ m, routingKey name (grpc.MethodName m)) <$> methods)
  ∧ ∀ key, key ∉ (λ m, routingKey name (grpc.MethodName m)) <$> methods →
           handlers c' !! key = handlers c !! key.
Proof.
  revert c. induction methods as [|m methods IH]; intros c Hreg.
  - injection Hreg as <-. split; [reflexivity|]. split; [|reflexivity].
    cbn. set_solver.
  - cbn [registerMethods] in Hreg.
    destruct (MethodByName svc (grpc.MethodName m)) as [caller|]; [|discriminate].
    destruct (NewInput caller) as [input|]; [|discriminate].
    apply IH in Hreg as (Hm & Hdom & Hframe).
    split; [exact Hm|]. split.
    + rewrite Hdom, RegisterHandler_dom, fmap_cons. cbn [list_to_set]. set_solver.
    + intros key Hkey. rewrite fmap_cons in Hkey.
      apply not_elem_of_cons in Hkey as [Hne Hkey].
      rewrite Hframe by exact Hkey. by apply RegisterHandler_other.
Qed.

Lemma registerStreams_bindings (name : string)
    (streams : list (grpc.StreamDesc StreamHandler)) svc c :
  let keys :=
    (λ s, routingKey name (grpc.StreamName s))
      <$> List.filter (λ s, grpc.ServerStreams s && negb (grpc.ClientStreams s)) streams in
  ctlMatcher (registerStreams name streams svc c) = ctlMatcher c
  ∧ dom (handlers (registerStreams name streams svc c))
    = dom (handlers c) ∪ list_to_set keys
  ∧ ∀ key, key ∉ keys →
           handlers (registerStreams name streams svc c) !! key = handlers c !! key.
Proof.
  cbv zeta. revert c. induction streams as [|s streams IH]; intros c.
  - split; [reflexivity|]. split; [|reflexivity]. cbn. set_solver.
  - cbn [registerStreams List.filter]. cbv beta.
    destruct (grpc.ServerStreams s && negb (grpc.ClientStreams s)); [|apply IH].
    destruct (IH (RegisterHandler (routingKey name (grpc.StreamName s))
                    (streamHandler s svc) c)) as (Hm & Hdom & Hframe).
    split; [exact Hm|]. split.
    + rewrite Hdom, RegisterHandler_dom, fmap_cons. cbn [list_to_set]. set_solver.
    + intros key Hkey. rewrite fmap_cons in Hkey.
      apply not_elem_of_cons in Hkey as [Hne Hkey].
      rewrite Hframe by exact Hkey. by apply RegisterHandler_other.
Qed.

(** X7. A registration that ends normally keeps the matcher and binds
    exactly the routing keys of the descriptor: those of its unary
    methods and of its server-only streams are bound afterwards, and no
    other key becomes bound. *)
Theorem X7_RegisterGRPCService_bound_keys
    (desc : grpc.ServiceDesc StreamHandler) svc c c' :
  RegisterGRPCService desc svc c = Registered c' →
  ctlMatcher c' = ctlMatcher c
  ∧ dom (handlers c') = dom (handlers c) ∪ list_to_set (boundKeys desc)
  ∧ (∀ key, key ∈ boundKeys desc → is_Some (handlers c' !! key)).
Proof.
  intros Hreg. unfold RegisterGRPCService in Hreg.
  destruct (registerMethods _ _ svc c) as [c1|msg] eqn:Hmethods; [|discriminate].
  injection Hreg as <-.
  apply registerMethods_bindings in Hmethods as (Hm1 & Hdom1 & _).
  destruct (registerStreams_bindings (grpc.ServiceName desc) (grpc.Streams desc) svc c1)
    as (Hm2 & Hdom2 & _).
  assert (Hdom : dom (handlers (registerStreams (grpc.ServiceName desc)
                                  (grpc.Streams desc) svc c1))
                 = dom (handlers c) ∪ list_to_set (boundKeys desc)).
  { rewrite Hdom2, Hdom1. unfold boundKeys. rewrite list_to_set_app_L. set_solver. }
  split; [by rewrite Hm2|]. split; [exact Hdom|].
  intros key Hkey. apply elem_of_dom. rewrite Hdom. set_solver.
Qed.

(** X8. A registration leaves every other key as it was: a key that is
    not a routing key of the descriptor has the handler it had, or none. *)
Theorem X8_RegisterGRPCService_frame
    (desc : grpc.ServiceDesc StreamHandler) svc c c' (key : string) :
  RegisterGRPCService desc svc c = Registered c' →
  key ∉ boundKeys desc →
  handlers c' !! key = handlers c !! key.
Proof.
  intros Hreg Hkey. unfold RegisterGRPCService in Hreg.
  destruct (registerMethods _ _ svc c) as [c1|msg] eqn:Hmethods; [|discriminate].
  injection Hreg as <-.
  apply registerMethods_bindings in Hmethods as (_ & _ & Hframe1).
  destruct (registerStreams_bindings (grpc.ServiceName desc) (grpc.Streams desc) svc c1)
    as (_ & _ & Hframe2).
  unfold boundKeys in Hkey. apply not_elem_of_app in Hkey as [Hk1 Hk2].
  rewrite Hframe2 by exact Hk2. by apply Hframe1.
Qed.

End binder_bindings.

Example catalog_registration_panics :
  RegisterGRPCService catalog.missingDesc catalog.svc catalog.empty
  = Panic "reflect: call of reflect.Value.Type on zero Value"
  ∧ RegisterGRPCService catalog.rawDesc catalog.svc catalog.empty
    = Panic "reflect: the method input is not a pointer to a proto.Message".
Proof. split; vm_compute; reflexivity. Qed.

Lemma X5_witness :
  HandleLambda
    (RegisterHandler "/k" catalog.second (RegisterHandler "/k" catalog.first catalog.empty))
    context.Background (catalog.request "/api/k" "" false) 0%nat
  = ((Response.mk 200 ∅ ∅ "second" false, None), (0%nat, [])).
Proof.
  apply (proj1 (proj2 (X5_RegisterHandler_last_wins catalog.empty context.Background
                         (catalog.request "/api/k" "" false) 0%nat "/k"
                         catalog.first catalog.second eq_refl))).
Defined.

Lemma X7_witness :
  ctlMatcher catalog.controller = ctlMatcher catalog.empty
  ∧ dom (handlers catalog.controller)
    = dom (handlers catalog.empty) ∪ list_to_set (boundKeys catalog.desc)
  ∧ (∀ key, key ∈ boundKeys catalog.desc → is_Some (handlers catalog.controller !! key)).
Proof.
  apply (X7_RegisterGRPCService_bound_keys catalog.desc catalog.svc catalog.empty
           catalog.controller).
  reflexivity.
Defined.

Lemma X8_witness :
  handlers catalog.controller !! "/catalog/Upload" = handlers catalog.empty !! "/catalog/Upload".
Proof.
  apply (X8_RegisterGRPCService_frame catalog.desc catalog.svc catalog.empty
           catalog.controller "/catalog/Upload").
  - reflexivity.
  - apply (bool_decide_unpack _). vm_compute. exact I.
Defined.

(** ** Dispatch to a unary method *)

Section unary_dispatch.

Context {W : Type} {M : Type} `{!proto.Message M}.

Variables (c : @Controller W) (ctx : context.Context) (proxyReq : ProxyRequest.t) (w : W)
  (key : string) (methodCaller : @Method W M) (methodInput : M).

Hypothesis resolved : ctlMatcher c ctx proxyReq = (key, None).
Hypothesis bound : handlers c !! key = Some (unaryHandler methodCaller methodInput).


Variables (callInput : M) (result : @CallResult M) (ctx' : context.Context) (w' : W).

Hypothesis decoded : UnmarshalProtobuf (mkRequest proxyReq key) methodInput = (callInput, None).
Hypothesis called :
  Call methodCaller (callContext ctx (mkRequest proxyReq key)) callInput w = (result, ctx', w').

Lemma unaryHandler_after_call (res : Response.t) :
  unaryHandler methodCaller methodInput ctx (mkRequest proxyReq key) res w
  = let res :=
      match metadata.FromOutgoingContext ctx with
      | Some outMeta => Response.setMultiValueHeaders outMeta res
      | None => res
      end in
    match result with
    | OtherValues repr =>
        (Response.setBody ("Invalid method output: " +:+ repr)
           (Response.setStatusCode http.StatusInternalServerError res), None, w')
    | TwoValues out AnyNil =>
        match out with
        | None => (Response.setBody "" res, None, w')
        | Some out =>
            match MarshalProtobuf res out with
            | (res, Some err) =>
                (Response.setBody ("Failed to marshal response: " +:+ Error err)
                   (Response.setStatusCode http.StatusInternalServerError res), Some err, w')
            | (res, None) => (res, None, w')
            end
        end
    | TwoValues _ err => let '(res, err) := convertResultError res err in (res, err, w')
    end.
Proof.
  unfold unaryHandler, proto.Clone. rewrite decoded.
  unfold callContext in called. rewrite called. reflexivity.
Qed.

(** X10. When the method returns a message and a nil error, the response
    is 200 with the serialized message: base64 with the flag set, or the
    empty body with the flag cleared when the serialization is empty.
    Nothing is logged. *)
Theorem X10_unary_success (out : M) (body : list Byte.byte) :
  result = TwoValues (Some out) AnyNil →
  proto.Marshal out = (body, None) →
  HandleLambda c ctx proxyReq w
  = ((match body with
      | [] => Response.mk 200 ∅ (default ∅ (metadata.FromOutgoingContext ctx)) "" false
      | _ => Response.mk 200 ∅ (default ∅ (metadata.FromOutgoingContext ctx)) (base64.EncodeToString body) true
      end, None), (w', [])).
Proof.
  intros Hres Hm. rewrite (HandleLambda_handler c ctx proxyReq w key _ resolved bound).
  rewrite unaryHandler_after_call, Hres. cbv zeta. unfold MarshalProtobuf. rewrite Hm.
  destruct (metadata.FromOutgoingContext ctx), body; reflexivity.
Qed.


(** X13. When the method returns an error without a status, the response
    is 500 and the body stays empty. *)
Theorem X13_unary_plain_error (out : option M) (err : error) :
  result = TwoValues out (AnyError err) →
  GRPCStatus err = None →
  HandleLambda c ctx proxyReq w
  = ((Response.mk 500 ∅ (default ∅ (metadata.FromOutgoingContext ctx)) "" false, None), (w', ["Failed to handle request"])).
Proof.
  intros Hres Hst. rewrite (HandleLambda_handler c ctx proxyReq w key _ resolved bound).
  rewrite unaryHandler_after_call, Hres. cbv zeta.
  unfold convertResultError, status.FromError. rewrite Hst.
  destruct (metadata.FromOutgoingContext ctx); reflexivity.
Qed.

(** X14. When the method's result is not two values, the response is 500
    with a diagnostic body, and the dispatcher logs nothing: the handler
    returned nil. *)
Theorem X14_unary_invalid_output (repr : string) :
  result = OtherValues repr →
  HandleLambda c ctx proxyReq w
  = ((Response.mk 500 ∅ (default ∅ (metadata.FromOutgoingContext ctx)) ("Invalid method output: " +:+ repr) false, None), (w', [])).
Proof.
  intros Hres. rewrite (HandleLambda_handler c ctx proxyReq w key _ resolved bound).
  rewrite unaryHandler_after_call, Hres. cbv zeta.
  destruct (metadata.FromOutgoingContext ctx); reflexivity.
Qed.

(** X15. When the returned message does not serialize, the response is
    500 with the serializer's error in the body. *)
Theorem X15_unary_marshal_failure (out : M) (body : list Byte.byte) (err : error) :
  result = TwoValues (Some out) AnyNil →
  proto.Marshal out = (body, Some err) →
  HandleLambda c ctx proxyReq w
  = ((Response.mk 500 ∅ (default ∅ (metadata.FromOutgoingContext ctx)) ("Failed to marshal response: " +:+ Error err) false, None),
     (w', ["Failed to handle request"])).
Proof.
  intros Hres Hm. rewrite (HandleLambda_handler c ctx proxyReq w key _ resolved bound).
  rewrite unaryHandler_after_call, Hres. cbv zeta. unfold MarshalProtobuf. rewrite Hm.
  destruct (metadata.FromOutgoingContext ctx); reflexivity.
Qed.

End unary_dispatch.

(** ** The base64 flag on the unary path *)

Section flag_on_unary_path.

Context {W : Type} {M : Type} `{!proto.Message M}.

(** X16. A successful [MarshalProtobuf] leaves the response with the
    flag invariant: the flag is set exactly when the body is the encoding
    of a non-empty payload. A failed one leaves the response as it was. *)
Theorem X16_MarshalProtobuf_establishes_invariant (res res' : Response.t) (m : M)
    (err : option error) :
  MarshalProtobuf res m = (res', err) →
  match err with
  | None => base64FlagInvariant res'
  | Some _ => res' = res
  end.
Proof.
  unfold MarshalProtobuf. destruct (proto.Marshal m) as [body [e|]].
  - by intros [= <- <-].
  - destruct body as [|b body]; cbn [length Nat.ltb Nat.leb]; intros [= <- <-].
    + unfold base64FlagInvariant. cbn. split; [discriminate|].
      intros (payload & Hne & Hbody).
      apply base64_facts.EncodeToString_nonempty in Hne. congruence.
    + unfold base64FlagInvariant. cbn [Response.IsBase64Encoded Response.Body
        Response.setIsBase64Encoded Response.setBody].
      split; [|reflexivity]. intros _. by exists (b :: body).
Qed.

Lemma MarshalProtobuf_flag (res : Response.t) (m : M) :
  Response.IsBase64Encoded res = false →
  Response.IsBase64Encoded (MarshalProtobuf res m).1 = true →
  ∃ payload, payload ≠ [] ∧ Response.Body (MarshalProtobuf res m).1 = base64.EncodeToString payload.
Proof.
  intros Hres. unfold MarshalProtobuf. destruct (proto.Marshal m) as [body [e|]].
  - cbn [fst]. congruence.
  - destruct body as [|b body]; cbn [length Nat.ltb Nat.leb fst]; [discriminate|].
    intros _. by exists (b :: body).
Qed.

Lemma convertResultError_flag (res : Response.t) (v : any) :
  Response.IsBase64Encoded res = false →
  Response.IsBase64Encoded (convertResultError res v).1 = false.
Proof.
  intros Hres. destruct v as [|err|T]; [exact Hres | | exact Hres].
  unfold convertResultError. destruct (status.FromError err) as [st [|]]; [|exact Hres].
  repeat (destruct (Code st =? _)%N; [reflexivity|]). reflexivity.
Qed.

Lemma unaryHandler_flag (methodCaller : @Method W M) (methodInput : M)
    (ctx : context.Context) (req : Request) (res : Response.t) (w : W) :
  Response.IsBase64Encoded res = false →
  Response.IsBase64Encoded (unaryHandler methodCaller methodInput ctx req res w).1.1 = true →
  ∃ payload,
    payload ≠ []
    ∧ Response.Body (unaryHandler methodCaller methodInput ctx req res w).1.1
      = base64.EncodeToString payload.
Proof.
  intros Hres. unfold unaryHandler, proto.Clone.
  destruct (UnmarshalProtobuf req methodInput) as [callInput [err|]];
    [cbn [fst Response.IsBase64Encoded Response.setBody Response.setStatusCode]; congruence|].
  destruct (Call methodCaller _ callInput w) as [[result ctx'] w'].
  set (res1 := match metadata.FromOutgoingContext ctx with
               | Some outMeta => Response.setMultiValueHeaders outMeta res
               | None => res
               end).
  assert (Hres1 : Response.IsBase64Encoded res1 = false)
    by (subst res1; destruct (metadata.FromOutgoingContext ctx); exact Hres).
  clearbody res1.
  destruct result as [out v|repr];
    [|cbn [fst Response.IsBase64Encoded Response.setBody Response.setStatusCode]; congruence].
  destruct v as [|err|T].
  - destruct out as [out|];
      [|cbn [fst Response.IsBase64Encoded Response.setBody]; congruence].
    pose proof (MarshalProtobuf_flag res1 out Hres1) as Hm.
    destruct (MarshalProtobuf res1 out) as [r [err|]] eqn:Hmarshal; cbn [fst] in *.
    + unfold MarshalProtobuf in Hmarshal.
      destruct (proto.Marshal out) as [body [e|]].
      * injection Hmarshal as <- _. cbn. congruence.
      * destruct (0 <? length body)%nat; discriminate Hmarshal.
    + exact Hm.
  - pose proof (convertResultError_flag res1 (AnyError err) Hres1) as Hc.
    destruct (convertResultError res1 (AnyError err)) as [r e]. cbn [fst] in *. congruence.
  - pose proof (convertResultError_flag res1 (AnyOther T) Hres1) as Hc.
    destruct (convertResultError res1 (AnyOther T)) as [r e]. cbn [fst] in *. congruence.
Qed.

(** X17. Whatever a unary method does, the response of its dispatch has
    the flag set only over a body that is the encoding of a non-empty
    payload. *)
Theorem X17_unary_flag_implies_encoded_body
    (c : @Controller W) (ctx : context.Context) (proxyReq : ProxyRequest.t) (w : W)
    (key : string) (methodCaller : @Method W M) (methodInput : M) :
  ctlMatcher c ctx proxyReq = (key, None) →
  handlers c !! key = Some (unaryHandler methodCaller methodInput) →
  Response.IsBase64Encoded (HandleLambda c ctx proxyReq w).1.1 = true →
  ∃ payload,
    payload ≠ []
    ∧ Response.Body (HandleLambda c ctx proxyReq w).1.1 = base64.EncodeToString payload.
Proof.
  intros Hkey Hh. rewrite (HandleLambda_handler c ctx proxyReq w key _ Hkey Hh).
  pose proof (unaryHandler_flag methodCaller methodInput ctx (mkRequest proxyReq key)
                (Response.setStatusCode http.StatusOK initialResponse) w eq_refl) as Hflag.
  destruct (unaryHandler _ _ _ _ _ w) as [[res' [err|]] w1]; cbn [fst] in *;
    [|exact Hflag].
  destruct (Response.StatusCode res' <? 400); exact Hflag.
Qed.

(** X11. Over a wire format whose parser inverts its serializer, a unary
    method that returns its input answers a request carrying the base64
    encoding of a non-empty serialization with status 200 and that same
    body, flag set. *)
Theorem X11_unary_echo
    (wire_round_trip :
       ∀ (m : M) (body : list Byte.byte) (target : M),
         proto.Marshal m = (body, None) → proto.Unmarshal body target = (m, None))
    (c : @Controller W) (ctx : context.Context) (proxyReq : ProxyRequest.t) (w w' : W)
    (key : string) (methodCaller : @Method W M) (methodInput m : M)
    (body : list Byte.byte) (ctx' : context.Context) :
  ctlMatcher c ctx proxyReq = (key, None) →
  handlers c !! key = Some (unaryHandler methodCaller methodInput) →
  proto.Marshal m = (body, None) → body ≠ [] →
  ProxyRequest.IsBase64Encoded proxyReq = true →
  ProxyRequest.Body proxyReq = base64.EncodeToString body →
  Call methodCaller (callContext ctx (mkRequest proxyReq key)) m w
    = (TwoValues (Some m) AnyNil, ctx', w') →
  HandleLambda c ctx proxyReq w
  = ((Response.mk 200 ∅ (default ∅ (metadata.FromOutgoingContext ctx))
        (ProxyRequest.Body proxyReq) true, None), (w', [])).
Proof.
  intros Hkey Hh Hm Hne Hflag Hbody Hcall.
  assert (Hin : UnmarshalProtobuf (mkRequest proxyReq key) methodInput = (m, None)).
  { unfold UnmarshalProtobuf. cbn [APIGatewayProxyRequest].
    rewrite Hflag, Hbody, base64_facts.DecodeString_EncodeToString.
    by apply wire_round_trip. }
  rewrite (HandleLambda_handler c ctx proxyReq w key _ Hkey Hh).
  rewrite (unaryHandler_after_call ctx proxyReq w key methodCaller methodInput
             m _ ctx' w' Hin Hcall).
  cbv zeta. unfold MarshalProtobuf. rewrite Hm, Hbody.
  destruct (metadata.FromOutgoingContext ctx), body; done.
Qed.

End flag_on_unary_path.

(** ** More of the synthetic stream *)

Section stream_adapter.

Context {W : Type} {M : Type} `{!proto.Message M}.

Implicit Types (g : grpcServerStream.t) (w : W) (p : grpc.Calls W M).

(** X18. No call on the adapter changes the request: whatever a stream
    handler body does, the adapter holds the request it was built with. *)
Theorem X18_runCalls_keeps_request p : ∀ g w,
  grpcServerStream.req (runCalls p g w).1.1 = grpcServerStream.req g.
Proof.
  induction p as [err|m k IH|m k IH|md k IH|md k IH|md k IH|k IH|f k IH|k IH];
    intros g w; cbn [runCalls].
  - reflexivity.
  - assert (Hreq : grpcServerStream.req (SendMsg g m).1 = grpcServerStream.req g).
    { unfold SendMsg. destruct m as [m|]; [|reflexivity].
      destruct (MarshalProtobuf _ m) as [r [err|]]; reflexivity. }
    destruct (SendMsg g m) as [g' err]. rewrite IH. exact Hreq.
  - assert (Hreq : grpcServerStream.req (RecvMsg g m).1.1 = grpcServerStream.req g).
    { unfold RecvMsg. destruct (UnmarshalProtobuf _ m) as [m' [err|]]; reflexivity. }
    destruct (RecvMsg g m) as [[g' m'] err]. rewrite IH. exact Hreq.
  - unfold SendHeader. by rewrite IH.
  - unfold SetHeader. by rewrite IH.
  - by rewrite IH.
  - by rewrite IH.
  - by rewrite IH.
  - by rewrite IH.
Qed.

(** X19. Of two messages sent in a row that both serialize, only the
    second shows: the adapter is left as if the second alone had been sent. *)
Theorem X19_SendMsg_last_write_wins g (m1 m2 : M) (body1 body2 : list Byte.byte) :
  proto.Marshal m1 = (body1, None) →
  proto.Marshal m2 = (body2, None) →
  SendMsg (SendMsg g (Some m1)).1 (Some m2) = SendMsg g (Some m2).
Proof.
  intros H1 H2. unfold SendMsg, MarshalProtobuf. rewrite H1, H2.
  destruct (0 <? length body1)%nat, (0 <? length body2)%nat; reflexivity.
Qed.


(** X21. Over a wire format whose parser inverts its serializer, on a
    request that carries the base64 encoding of a non-empty
    serialization: [RecvMsg] gives the message and leaves the adapter as
    it was, and [SendMsg] of that message puts the request body in the
    response, flag set. *)
Theorem X21_RecvMsg_SendMsg_round_trip
    (wire_round_trip :
       ∀ (m : M) (body : list Byte.byte) (target : M),
         proto.Marshal m = (body, None) → proto.Unmarshal body target = (m, None))
    g (m target : M) (body : list Byte.byte) :
  proto.Marshal m = (body, None) → body ≠ [] →
  ProxyRequest.IsBase64Encoded (APIGatewayProxyRequest (grpcServerStream.req g)) = true →
  ProxyRequest.Body (APIGatewayProxyRequest (grpcServerStream.req g))
    = base64.EncodeToString body →
  RecvMsg g target = (g, m, None)
  ∧ SendMsg g (Some m)
    = (grpcServerStream.setRes
         (Response.setIsBase64Encoded true
            (Response.setBody
               (ProxyRequest.Body (APIGatewayProxyRequest (grpcServerStream.req g)))
               (grpcServerStream.res g))) g, None).
Proof.
  intros Hm Hne Hflag Hbody. split.
  - unfold RecvMsg, UnmarshalProtobuf.
    rewrite Hflag, Hbody, base64_facts.DecodeString_EncodeToString.
    by rewrite (wire_round_trip m body target Hm).
  - unfold SendMsg, MarshalProtobuf. rewrite Hm, Hbody. by destruct body.
Qed.

End stream_adapter.

(** ** More of the dispatcher and the codec *)

Section dispatcher_status.

Context {W : Type} {M : Type} `{!proto.Message M}.

(** X22. [HandleLambda] returns a status code below 400 only when a
    handler ran and returned nil: the response is then the one the
    handler left, and nothing is logged. *)
Theorem X22_HandleLambda_success_status
    (c : @Controller W) (ctx : context.Context) (proxyReq : ProxyRequest.t) (w : W) :
  Response.StatusCode (HandleLambda c ctx proxyReq w).1.1 < 400 →
  ∃ key handler res' w',
    ctlMatcher c ctx proxyReq = (key, None)
    ∧ handlers c !! key = Some handler
    ∧ handler ctx (mkRequest proxyReq key)
        (Response.setStatusCode http.StatusOK initialResponse) w = (res', None, w')
    ∧ HandleLambda c ctx proxyReq w = ((res', None), (w', [])).
Proof.
  unfold HandleLambda.
  destruct (ctlMatcher c ctx proxyReq) as [key [err|]].
  - destruct (status.FromError err) as [st ok].
    destruct (ok && (Code st =? codes.NotFound)%N); intros Hlt; cbv in Hlt; discriminate Hlt.
  - destruct (handlers c !! key) as [handler|] eqn:Hh;
      [|intros Hlt; cbv in Hlt; discriminate Hlt].
    destruct (handler _ _ _ _) as [[res' [err|]] w'] eqn:Hrun; cbn [fst].
    + destruct (Z.ltb_spec (Response.StatusCode res') 400); intros Hlt.
      * cbv in Hlt. discriminate Hlt.
      * lia.
    + intros _. by exists key, handler, res', w'.
Qed.


End dispatcher_status.

(** ** The catalog service, dispatched *)


Lemma X10_witness :
  HandleLambda catalog.controller context.Background
    (catalog.request "/api/catalog/Echo" "aGk" true) 0%nat
  = ((Response.mk 200 ∅ ∅ "aGk" true, None), (1%nat, [])).
Proof.
  apply (X10_unary_success catalog.controller context.Background
           (catalog.request "/api/catalog/Echo" "aGk" true) 0%nat "/catalog/Echo"
           (catalog.method (λ m, TwoValues (Some m) AnyNil)) (catalog.Good [])
           eq_refl eq_refl (catalog.Good catalog.hello) _ _ 1%nat eq_refl eq_refl
           (catalog.Good catalog.hello) catalog.hello eq_refl eq_refl).
Defined.

Lemma X11_witness :
  HandleLambda catalog.controller context.Background
    (catalog.request "/api/catalog/Echo" "aGk" true) 0%nat
  = ((Response.mk 200 ∅ ∅ "aGk" true, None), (1%nat, [])).
Proof.
  refine (X11_unary_echo (M := catalog.Doc) _ catalog.controller context.Background
            (catalog.request "/api/catalog/Echo" "aGk" true) 0%nat 1%nat "/catalog/Echo"
            (catalog.method (λ m, TwoValues (Some m) AnyNil)) (catalog.Good [])
            (catalog.Good catalog.hello) catalog.hello _
            eq_refl eq_refl eq_refl _ eq_refl eq_refl eq_refl).
  - intros [content|] body target Hm; cbn in Hm; [|discriminate Hm].
    injection Hm as <-. reflexivity.
  - discriminate.
Defined.


Lemma X13_witness :
  HandleLambda catalog.controller context.Background
    (catalog.request "/api/catalog/Store" "" false) 0%nat
  = ((Response.mk 500 ∅ ∅ "" false, None), (1%nat, ["Failed to handle request"])).
Proof.
  apply (X13_unary_plain_error catalog.controller context.Background
           (catalog.request "/api/catalog/Store" "" false) 0%nat "/catalog/Store"
           (catalog.method (λ _, TwoValues None (AnyError catalog.plain)))
           (catalog.Good []) eq_refl eq_refl (catalog.Good []) _ _ 1%nat eq_refl eq_refl
           None catalog.plain eq_refl eq_refl).
Defined.

Lemma X14_witness :
  HandleLambda catalog.controller context.Background
    (catalog.request "/api/catalog/Odd" "" false) 0%nat
  = ((Response.mk 500 ∅ ∅ "Invalid method output: [<*catalog.Doc Value>]" false, None),
     (1%nat, [])).
Proof.
  apply (X14_unary_invalid_output catalog.controller context.Background
           (catalog.request "/api/catalog/Odd" "" false) 0%nat "/catalog/Odd"
           (catalog.method (λ _, OtherValues "[<*catalog.Doc Value>]"))
           (catalog.Good []) eq_refl eq_refl (catalog.Good []) _ _ 1%nat eq_refl eq_refl
           "[<*catalog.Doc Value>]" eq_refl).
Defined.

Lemma X15_witness :
  HandleLambda catalog.controller context.Background
    (catalog.request "/api/catalog/Render" "" false) 0%nat
  = ((Response.mk 500 ∅ ∅ "Failed to marshal response: proto: cannot marshal" false, None),
     (1%nat, ["Failed to handle request"])).
Proof.
  apply (X15_unary_marshal_failure catalog.controller context.Background
           (catalog.request "/api/catalog/Render" "" false) 0%nat "/catalog/Render"
           (catalog.method (λ _, TwoValues (Some catalog.Bad) AnyNil))
           (catalog.Good []) eq_refl eq_refl (catalog.Good []) _ _ 1%nat eq_refl eq_refl
           catalog.Bad [] catalog.unserializable eq_refl eq_refl).
Defined.

Lemma X16_witness :
  base64FlagInvariant (Response.mk 404 ∅ ∅ "aGk" true)
  ∧ Response.mk 404 ∅ ∅ "" false = initialResponse.
Proof.
  split.
  - refine (X16_MarshalProtobuf_establishes_invariant initialResponse
              (Response.mk 404 ∅ ∅ "aGk" true)
              (catalog.Good catalog.hello) None _).
    vm_compute. reflexivity.
  - refine (X16_MarshalProtobuf_establishes_invariant initialResponse
              (Response.mk 404 ∅ ∅ "" false)
              catalog.Bad (Some catalog.unserializable) _).
    vm_compute. reflexivity.
Defined.

Lemma X17_witness :
  ∃ payload,
    payload ≠ []
    ∧ Response.Body
        (HandleLambda catalog.controller context.Background
           (catalog.request "/api/catalog/Echo" "aGk" true) 0%nat).1.1
      = base64.EncodeToString payload.
Proof.
  apply (X17_unary_flag_implies_encoded_body catalog.controller context.Background
           (catalog.request "/api/catalog/Echo" "aGk" true) 0%nat "/catalog/Echo"
           (catalog.method (λ m, TwoValues (Some m) AnyNil)) (catalog.Good [])
           eq_refl eq_refl eq_refl).
Defined.

Lemma X19_witness :
  SendMsg
    (SendMsg
       (newGrpcServerStream context.Background
          (mkRequest (catalog.request "/api/catalog/Copy" "" false) "/catalog/Copy")
          initialResponse)
       (Some (catalog.Good catalog.hello))).1
    (Some (catalog.Good [Byte.x21]))
  = SendMsg
      (newGrpcServerStream context.Background
         (mkRequest (catalog.request "/api/catalog/Copy" "" false) "/catalog/Copy")
         initialResponse)
      (Some (catalog.Good [Byte.x21])).
Proof.
  apply (X19_SendMsg_last_write_wins (M := catalog.Doc) (H := catalog.doc)
           _ (catalog.Good catalog.hello) (catalog.Good [Byte.x21])
           catalog.hello [Byte.x21] eq_refl eq_refl).
Defined.


Lemma X21_witness :
  let g :=
    newGrpcServerStream context.Background
      (mkRequest (catalog.request "/api/catalog/Copy" "aGk" true) "/catalog/Copy")
      initialResponse in
  RecvMsg g (catalog.Good []) = (g, catalog.Good catalog.hello, None)
  ∧ SendMsg g (Some (catalog.Good catalog.hello))
    = (grpcServerStream.setRes (Response.mk 404 ∅ ∅ "aGk" true) g, None).
Proof.
  cbv zeta.
  refine (X21_RecvMsg_SendMsg_round_trip (M := catalog.Doc) _
            (newGrpcServerStream context.Background
               (mkRequest (catalog.request "/api/catalog/Copy" "aGk" true) "/catalog/Copy")
               initialResponse)
            (catalog.Good catalog.hello) (catalog.Good []) catalog.hello
            eq_refl _ eq_refl eq_refl).
  - intros [content|] body target Hm; cbn in Hm; [|discriminate Hm].
    injection Hm as <-. reflexivity.
  - discriminate.
Defined.

Lemma X22_witness :
  ∃ key handler res' w',
    ctlMatcher catalog.controller context.Background
      (catalog.request "/api/catalog/Echo" "aGk" true) = (key, None)
    ∧ handlers catalog.controller !! key = Some handler
    ∧ handler context.Background
        (mkRequest (catalog.request "/api/catalog/Echo" "aGk" true) key)
        (Response.setStatusCode http.StatusOK initialResponse) 0%nat = (res', None, w')
    ∧ HandleLambda catalog.controller context.Background
        (catalog.request "/api/catalog/Echo" "aGk" true) 0%nat = ((res', None), (w', [])).
Proof.
  apply (X22_HandleLambda_success_status catalog.controller context.Background
           (catalog.request "/api/catalog/Echo" "aGk" true) 0%nat).
  vm_compute. reflexivity.
Defined.


Example catalog_copy_stream :
  HandleLambda catalog.controller context.Background
    (catalog.request "/api/catalog/Copy//" "aGk" true) 0%nat
  = ((Response.mk 102 ∅ ∅ "aGk" true, None), (0%nat, [])).
Proof. vm_compute. reflexivity. Qed.
